(** * DayInTheLife: the multi-agent career simulator of [CareerAIAgent.py]

    A shallow embedding of [BaseAgent] (the turn executor) and of
    [MultiAgentCareerSimulator] (the orchestrator), followed by the
    properties of the orchestration contract.

    Conventions of the embedding.
    - A Python [str] is a [string]; a Python [int] is a [Z].
    - The values that travel through [json.loads], [json.dumps] and the
      context dictionaries are the type [value]; a Python [dict] is an
      association list in insertion order, which is the order [json.dumps]
      prints.  JSON numbers with a fraction or an exponent (Python floats)
      are outside [value].
    - What the interpreter and the outside world provide -- the chat
      completion endpoint, the clock, the [json] module and the iteration
      order of a [set] -- is the interface [Runtime]; every property is
      proved for every instance of it.
    - A method of the simulator is a computation in the monad [M]: it reads
      and writes the object [self] and the world, and returns a value or
      raises an exception.  The calls to [print] are left out. *)

From Stdlib Require Import List String Ascii ZArith Bool Lia Permutation.
From Stdlib Require Import DecimalString.
Import ListNotations.
Open Scope string_scope.

Set Implicit Arguments.
#[local] Set Warnings "-register-all".

(** ** Python values *)

Inductive value : Type :=
| VNone
| VBool (b : bool)
| VInt (n : Z)
| VStr (s : string)
| VList (l : list value)
| VDict (d : list (string * value)).

Definition dict : Type := list (string * value).

(** [d[k]] and [d.get(k)]: the binding of [k], if any. *)
Fixpoint dict_lookup (d : dict) (k : string) : option value :=
  match d with
  | [] => None
  | (k', v) :: d' => if String.eqb k k' then Some v else dict_lookup d' k
  end.

Inductive exn : Type :=
| JSONDecodeError
| AttributeError
| TypeError
| KeyError (k : string)
| IndexError.

Inductive Res (A : Type) : Type :=
| Val (a : A)
| Raise (e : exn).

Arguments Val {A} a.
Arguments Raise {A} e.

Definition res_bind {A B} (r : Res A) (k : A -> Res B) : Res B :=
  match r with
  | Val a => k a
  | Raise e => Raise e
  end.

(** [d[k]], which raises [KeyError] on a missing key. *)
Definition dict_getitem (d : dict) (k : string) : Res value :=
  match dict_lookup d k with
  | Some v => Val v
  | None => Raise (KeyError k)
  end.

(** [v.get(k, default)]: only a dict has the method. *)
Definition py_get (v : value) (k : string) (default : value) : Res value :=
  match v with
  | VDict d =>
      Val (match dict_lookup d k with Some x => x | None => default end)
  | _ => Raise AttributeError
  end.

(** The elements [list.extend(v)] iterates over: the items of a list, the
    characters of a string, the keys of a dict; other values are not
    iterable. *)
Definition py_iter (v : value) : Res (list value) :=
  match v with
  | VList l => Val l
  | VStr s =>
      Val (map (fun c => VStr (String c EmptyString)) (list_ascii_of_string s))
  | VDict d => Val (map (fun kv => VStr (fst kv)) d)
  | _ => Raise TypeError
  end.

(** [l[i]] on a list, with Python's negative indices. *)
Definition py_index {A} (l : list A) (i : Z) : Res A :=
  let n := Z.of_nat (List.length l) in
  let j := if (i <? 0)%Z then (i + n)%Z else i in
  if ((0 <=? j) && (j <? n))%Z
  then match nth_error l (Z.to_nat j) with
       | Some x => Val x
       | None => Raise IndexError
       end
  else Raise IndexError.

(** Hashable values are the ones a [set] accepts. *)
Definition hashable (v : value) : bool :=
  match v with
  | VList _ | VDict _ => false
  | _ => true
  end.

(** [a == b] on hashable values: [True] and [False] are the integers 1 and
    0. *)
Definition py_eq (a b : value) : bool :=
  match a, b with
  | VNone, VNone => true
  | VBool x, VBool y => Bool.eqb x y
  | VBool x, VInt y => (Z.b2z x =? y)%Z
  | VInt x, VBool y => (x =? Z.b2z y)%Z
  | VInt x, VInt y => (x =? y)%Z
  | VStr x, VStr y => String.eqb x y
  | _, _ => false
  end.

(** [set(xs)], as the list of its elements in the order they were first
    inserted: an element equal to one already present is dropped, an
    unhashable one raises [TypeError]. *)
Fixpoint set_insert_all (seen xs : list value) : Res (list value) :=
  match xs with
  | [] => Val seen
  | x :: xs' =>
      if hashable x
      then if existsb (py_eq x) seen
           then set_insert_all seen xs'
           else set_insert_all (seen ++ [x]) xs'
      else Raise TypeError
  end.

Definition py_set (xs : list value) : Res (list value) :=
  set_insert_all [] xs.

(** The elements of a set: hashable, and pairwise different for [==]. *)
Definition set_like (l : list value) : Prop :=
  Forall (fun v => hashable v = true) l
  /\ NoDup l
  /\ forall a b, In a l -> In b l -> py_eq a b = true -> a = b.

(** ** The world around the program *)

Record Message : Type := { msg_role : string; msg_content : string }.

(** A chunk of the response stream, as the loop of [_call_model] reads it:
    the [reasoning_content] attribute of [chunk.choices[0].delta] (absent
    or [None] is [None]) and its [content]. *)
Record Chunk : Type := {
  delta_reasoning_content : option string;
  delta_content : option string
}.

(** The keyword arguments of [chat.completions.create] other than
    [temperature=0.7] and [top_p=0.95]. *)
Record Request : Type := {
  req_model : string;
  req_messages : list Message;
  req_max_tokens : Z;
  req_stream : bool;
  req_min_thinking_tokens : Z;
  req_max_thinking_tokens : Z
}.

Class Runtime : Type := {
  (** the state of everything outside the process: endpoint and clock *)
  World : Type;
  (** [client.chat.completions.create(...)], iterated to the end of the
      stream *)
  chat_completions_create : Request -> World -> list Chunk * World;
  (** [datetime.now().isoformat()] *)
  datetime_now_isoformat : World -> string * World;
  (** [json.loads]; [None] when it raises *)
  json_loads : string -> option value;
  (** [json.dumps] *)
  json_dumps : value -> string;
  (** the order in which [list(s)] visits a set [s], given its elements in
      insertion order *)
  set_iteration : list value -> list value;
  set_iteration_perm : forall l, Permutation (set_iteration l) l
}.

(** ** Text constants *)

Definition nl : string := String "010"%char EmptyString.
Definition dq : string := String "034"%char EmptyString.
Definition quoted (s : string) : string := dq ++ s ++ dq.
Definition lines (l : list string) : string := String.concat nl l.

(** ** BaseAgent and its four subclasses *)

Inductive AgentClass : Type :=
| CareerResearchAgent
| ScenarioDesignerAgent
| EvaluationAgent
| NarratorAgent.

(** [BaseAgent] itself is abstract ([get_system_prompt] raises
    [NotImplementedError]) and is never instantiated; [memory] is never
    read or written; [client] is the [World]. *)
Record BaseAgent : Type := {
  agent_class : AgentClass;
  model : string;
  role : string
}.

Definition get_system_prompt (a : BaseAgent) : string :=
  match agent_class a with
  | CareerResearchAgent => lines [
      "You are a Career Research Agent. Your job:";
      "1. DECIDE if you have enough information about the career to create realistic scenarios";
      "2. If NOT, identify WHAT specific information you need (typical day, common challenges, required skills, tools used)";
      "3. Output your decision and reasoning";
      EmptyString;
      "Use /think to analyze what's known vs needed. Output JSON:";
      "{" ++ quoted "needs_research" ++ ": true/false, "
          ++ quoted "missing_info" ++ ": [...], "
          ++ quoted "known_info" ++ ": {...}}" ]
  | ScenarioDesignerAgent => lines [
      "You are a Scenario Designer Agent. Create realistic, challenging scenarios for career simulations.";
      EmptyString;
      "For each scenario, include:";
      "- Realistic problem/situation";
      "- 3-4 decision options with trade-offs";
      "- Hidden complexity that reveals career realities";
      EmptyString;
      "Use /think to ensure authenticity. Output JSON:";
      "{" ++ quoted "scenario" ++ ": " ++ quoted "..." ++ ", "
          ++ quoted "options" ++ ": [...], "
          ++ quoted "learning_goal" ++ ": " ++ quoted "..." ++ "}" ]
  | EvaluationAgent => lines [
      "You are an Evaluation Agent. Analyze user decisions in career scenarios.";
      EmptyString;
      "Consider:";
      "- Immediate consequences";
      "- Long-term implications";
      "- What professionals would actually do";
      "- Skills demonstrated (or lacking)";
      EmptyString;
      "Use /think to reason about realistic outcomes. Output JSON:";
      "{" ++ quoted "consequence" ++ ": " ++ quoted "..." ++ ", "
          ++ quoted "skills_used" ++ ": [...], "
          ++ quoted "professional_insight" ++ ": " ++ quoted "..." ++ "}" ]
  | NarratorAgent => lines [
      "You are a Narrator Agent. Transform scenario data into immersive storytelling.";
      EmptyString;
      "Make it feel real and engaging while being educational. Keep responses 2-3 paragraphs.";
      "Use /think to craft compelling narrative that teaches." ]
  end.

(** The record [think_and_act] returns. *)
Record TurnResult : Type := {
  agent : string;
  reasoning : string;
  action : string;
  timestamp : string
}.

(** Truth value of [if s:] for [s] a string or [None]. *)
Definition truthy (o : option string) : bool :=
  match o with
  | Some s => negb (String.eqb s EmptyString)
  | None => false
  end.

(** One pass of the loop [for chunk in completion] on the accumulators
    [(reasoning, content)]. *)
Definition accumulate (acc : string * string) (chunk : Chunk)
  : string * string :=
  let '(reasoning, content) := acc in
  let reasoning :=
    match delta_reasoning_content chunk with
    | Some r => if truthy (Some r) then reasoning ++ r else reasoning
    | None => reasoning
    end in
  let content :=
    match delta_content chunk with
    | Some c => if truthy (Some c) then content ++ c else content
    | None => content
    end in
  (reasoning, content).

(** What a channel of a chunk adds to its accumulator. *)
Definition delta_text (o : option string) : string :=
  match o with
  | Some s => s
  | None => EmptyString
  end.

Section WithRuntime.

Context {RT : Runtime}.

Definition _format_prompt (prompt : string) (context : option dict)
  : string :=
  match context with
  | Some ((_ :: _) as d) =>
      "Context: " ++ json_dumps (VDict d) ++ nl ++ nl ++ "Task: " ++ prompt
  | _ => prompt
  end.

(** The request [_call_model] sends for [messages]. *)
Definition completion_request (a : BaseAgent) (messages : list Message)
  : Request :=
  {| req_model := model a;
     req_messages := messages;
     req_max_tokens := 1024;
     req_stream := true;
     req_min_thinking_tokens := 256;
     req_max_thinking_tokens := 512 |}.

(** Returns the pair [(reasoning, content)] of the dict
    [{"reasoning": ..., "content": ...}]. *)
Definition _call_model (a : BaseAgent) (messages : list Message) (w : World)
  : (string * string) * World :=
  let (completion, w1) :=
    chat_completions_create (completion_request a messages) w in
  (fold_left accumulate completion (EmptyString, EmptyString), w1).

(** The two messages [think_and_act] builds. *)
Definition build_messages (a : BaseAgent) (prompt : string)
  (context : option dict) : list Message :=
  [ {| msg_role := "system"; msg_content := get_system_prompt a |};
    {| msg_role := "user"; msg_content := _format_prompt prompt context |} ].

Definition think_and_act (a : BaseAgent) (prompt : string)
  (context : option dict) (w : World) : TurnResult * World :=
  let messages := build_messages a prompt context in
  let (response, w1) := _call_model a messages w in
  let (now, w2) := datetime_now_isoformat w1 in
  ({| agent := role a;
      reasoning := fst response;
      action := snd response;
      timestamp := now |}, w2).

(** ** MultiAgentCareerSimulator *)

(** The dict [simulation_state]; its four keys never change. *)
Record SimulationState : Type := {
  time : string;
  scenarios_completed : Z;
  skills_demonstrated : list value;
  current_scenario : option TurnResult
}.

Record MultiAgentCareerSimulator : Type := {
  research_agent : BaseAgent;
  scenario_agent : BaseAgent;
  evaluator : BaseAgent;
  narrator : BaseAgent;
  career_knowledge : dict;
  simulation_state : SimulationState;
  agent_log : list TurnResult
}.

Definition simulator_model : string := "nvidia/nvidia-nemotron-nano-9b-v2".

(** The object [__init__] builds; the API key only configures the client. *)
Definition init : MultiAgentCareerSimulator :=
  {| research_agent :=
       {| agent_class := CareerResearchAgent;
          model := simulator_model; role := "Research" |};
     scenario_agent :=
       {| agent_class := ScenarioDesignerAgent;
          model := simulator_model; role := "Scenario Designer" |};
     evaluator :=
       {| agent_class := EvaluationAgent;
          model := simulator_model; role := "Evaluator" |};
     narrator :=
       {| agent_class := NarratorAgent;
          model := simulator_model; role := "Narrator" |};
     career_knowledge := [];
     simulation_state :=
       {| time := "9:00 AM";
          scenarios_completed := 0;
          skills_demonstrated := [];
          current_scenario := None |};
     agent_log := [] |}.

(** Field updates. *)
Definition with_career_knowledge (d : dict) (self : MultiAgentCareerSimulator)
  : MultiAgentCareerSimulator :=
  {| research_agent := research_agent self;
     scenario_agent := scenario_agent self;
     evaluator := evaluator self;
     narrator := narrator self;
     career_knowledge := d;
     simulation_state := simulation_state self;
     agent_log := agent_log self |}.

Definition with_simulation_state (st : SimulationState)
  (self : MultiAgentCareerSimulator) : MultiAgentCareerSimulator :=
  {| research_agent := research_agent self;
     scenario_agent := scenario_agent self;
     evaluator := evaluator self;
     narrator := narrator self;
     career_knowledge := career_knowledge self;
     simulation_state := st;
     agent_log := agent_log self |}.

Definition with_agent_log (l : list TurnResult)
  (self : MultiAgentCareerSimulator) : MultiAgentCareerSimulator :=
  {| research_agent := research_agent self;
     scenario_agent := scenario_agent self;
     evaluator := evaluator self;
     narrator := narrator self;
     career_knowledge := career_knowledge self;
     simulation_state := simulation_state self;
     agent_log := l |}.

Definition with_time (t : string) (st : SimulationState) : SimulationState :=
  {| time := t;
     scenarios_completed := scenarios_completed st;
     skills_demonstrated := skills_demonstrated st;
     current_scenario := current_scenario st |}.

Definition with_scenarios_completed (n : Z) (st : SimulationState)
  : SimulationState :=
  {| time := time st;
     scenarios_completed := n;
     skills_demonstrated := skills_demonstrated st;
     current_scenario := current_scenario st |}.

Definition with_skills_demonstrated (l : list value) (st : SimulationState)
  : SimulationState :=
  {| time := time st;
     scenarios_completed := scenarios_completed st;
     skills_demonstrated := l;
     current_scenario := current_scenario st |}.

Definition with_current_scenario (c : option TurnResult)
  (st : SimulationState) : SimulationState :=
  {| time := time st;
     scenarios_completed := scenarios_completed st;
     skills_demonstrated := skills_demonstrated st;
     current_scenario := c |}.

(** The dicts [json.dumps] receives. *)
Definition turn_dict (t : TurnResult) : dict :=
  [ ("agent", VStr (agent t));
    ("reasoning", VStr (reasoning t));
    ("action", VStr (action t));
    ("timestamp", VStr (timestamp t)) ].

Definition state_dict (st : SimulationState) : dict :=
  [ ("time", VStr (time st));
    ("scenarios_completed", VInt (scenarios_completed st));
    ("skills_demonstrated", VList (skills_demonstrated st));
    ("current_scenario",
      match current_scenario st with
      | Some t => VDict (turn_dict t)
      | None => VNone
      end) ].

(** *** The monad of the methods

    A method runs on the object and the world; an exception leaves both as
    they were when it was raised. *)

Definition Sys : Type := (MultiAgentCareerSimulator * World)%type.

Definition M (A : Type) : Type := Sys -> Res A * Sys.

Definition ret {A} (a : A) : M A := fun s => (Val a, s).

Definition bind {A B} (c : M A) (k : A -> M B) : M B :=
  fun s =>
    match c s with
    | (Val a, s1) => k a s1
    | (Raise e, s1) => (Raise e, s1)
    end.

Definition get_self : M MultiAgentCareerSimulator :=
  fun s => (Val (fst s), s).

Definition update_self
  (f : MultiAgentCareerSimulator -> MultiAgentCareerSimulator) : M unit :=
  fun s => (Val tt, (f (fst s), snd s)).

Definition update_state (f : SimulationState -> SimulationState) : M unit :=
  update_self (fun self =>
    with_simulation_state (f (simulation_state self)) self).

(** A call that only involves the world. *)
Definition io {A} (f : World -> A * World) : M A :=
  fun s => let (a, w) := f (snd s) in (Val a, (fst s, w)).

(** A pure step that may raise. *)
Definition lift {A} (r : Res A) : M A := fun s => (r, s).

Notation "x <- c ;; k" := (bind c (fun x => k))
  (at level 61, c at next level, right associativity).
Notation "c ;;; k" := (bind c (fun _ => k))
  (at level 61, right associativity).

(** [self.agent_log.append(t)] *)
Definition agent_log_append (t : TurnResult) : M unit :=
  update_self (fun self => with_agent_log (agent_log self ++ [t]) self).

Definition start_simulation (career : string) : M string :=
  self <- get_self ;;
  research_result <- io (think_and_act (research_agent self)
    ("Do we have enough information to simulate a day as a " ++ career
       ++ "? What do we need to know?")
    (Some [("career", VStr career)])) ;;
  agent_log_append research_result ;;;
  update_self (with_career_knowledge
    [ ("career", VStr career);
      ("researched", VBool true);
      ("typical_challenges", VStr ("Common challenges for " ++ career));
      ("tools", VStr ("Tools used in " ++ career)) ]) ;;;
  self <- get_self ;;
  scenario_result <- io (think_and_act (scenario_agent self)
    ("Design an engaging opening scenario for a " ++ career
       ++ "'s day at 9 AM")
    (Some (career_knowledge self))) ;;
  agent_log_append scenario_result ;;;
  narrative_result <- io (think_and_act (narrator self)
    ("Present this scenario engagingly: " ++ action scenario_result)
    (Some [("career", VStr career); ("time", VStr "9:00 AM")])) ;;
  agent_log_append narrative_result ;;;
  update_state (with_current_scenario (Some scenario_result)) ;;;
  ret (action narrative_result).

Definition times : list string :=
  ["9:00 AM"; "10:30 AM"; "12:00 PM"; "2:00 PM"; "4:00 PM"; "5:30 PM"].

Definition _advance_time : M string :=
  self <- get_self ;;
  let idx := Z.min (scenarios_completed (simulation_state self))
                   (Z.of_nat (List.length times) - 1) in
  lift (py_index times idx).

(** The body of the [try] block of [process_user_decision], up to the
    argument [extend] iterates over. *)
Definition skills_used_of (answer : string) : Res (list value) :=
  match json_loads answer with
  | None => Raise JSONDecodeError
  | Some eval_data =>
      res_bind (py_get eval_data "skills_used" (VList [])) py_iter
  end.

Definition context_value (o : option TurnResult) : value :=
  match o with
  | Some t => VDict (turn_dict t)
  | None => VNone
  end.

Definition process_user_decision (user_choice : string) : M string :=
  self <- get_self ;;
  career <- lift (dict_getitem (career_knowledge self) "career") ;;
  eval_result <- io (think_and_act (evaluator self)
    ("User chose: '" ++ user_choice ++ "'. Evaluate this decision.")
    (Some [ ("scenario",
              context_value (current_scenario (simulation_state self)));
            ("career", career) ])) ;;
  agent_log_append eval_result ;;;
  match skills_used_of (action eval_result) with
  | Val skills =>
      update_state (fun st =>
        with_skills_demonstrated (skills_demonstrated st ++ skills) st)
  | Raise _ => ret tt
  end ;;;
  update_state (fun st =>
    with_scenarios_completed (scenarios_completed st + 1) st) ;;;
  t <- _advance_time ;;
  update_state (with_time t) ;;;
  self <- get_self ;;
  career <- lift (dict_getitem (career_knowledge self) "career") ;;
  next_scenario <- io (think_and_act (scenario_agent self)
    "Create next scenario based on the consequence of user's choice"
    (Some [ ("previous_choice", VStr user_choice);
            ("consequence", VStr (action eval_result));
            ("time", VStr (time (simulation_state self)));
            ("career", career) ])) ;;
  agent_log_append next_scenario ;;;
  narrative <- io (think_and_act (narrator self)
    "Tell the story of what happened after their choice and introduce the new scenario"
    (Some [ ("choice", VStr user_choice);
            ("consequence", VStr (action eval_result));
            ("next_scenario", VStr (action next_scenario)) ])) ;;
  agent_log_append narrative ;;;
  update_state (with_current_scenario (Some next_scenario)) ;;;
  ret (action narrative).

(** The dict [generate_summary] returns. *)
Record Summary : Type := {
  summary_career : value;
  summary_scenarios_completed : Z;
  summary_skills : list value;
  summary_summary : string;
  summary_agent_interactions : Z
}.

Definition generate_summary : M Summary :=
  self <- get_self ;;
  eval_summary <- io (think_and_act (evaluator self)
    "Summarize the skills and decisions demonstrated"
    (Some (state_dict (simulation_state self)))) ;;
  narrative_summary <- io (think_and_act (narrator self)
    "Create an engaging summary of the career day experience"
    (Some [ ("state", VDict (state_dict (simulation_state self)));
            ("evaluation", VStr (action eval_summary)) ])) ;;
  career <- lift (dict_getitem (career_knowledge self) "career") ;;
  skills <- lift (py_set (skills_demonstrated (simulation_state self))) ;;
  ret {| summary_career := career;
         summary_scenarios_completed :=
           scenarios_completed (simulation_state self);
         summary_skills := set_iteration skills;
         summary_summary := action narrative_summary;
         summary_agent_interactions := Z.of_nat (List.length (agent_log self)) |}.

Definition get_agent_log : M (list TurnResult) :=
  self <- get_self ;;
  ret (agent_log self).

(** *** Sequences of calls

    What a frontend does with one simulator: calls in any order; a call
    that raises leaves the object as the exception found it, and the next
    call runs on that object. *)

Inductive op : Type :=
| Start (career : string)
| Decide (user_choice : string)
| Summarize.

Definition run_op (o : op) (s : Sys) : Sys :=
  match o with
  | Start career => snd (start_simulation career s)
  | Decide user_choice => snd (process_user_decision user_choice s)
  | Summarize => snd (generate_summary s)
  end.

Definition run_ops (ops : list op) (s : Sys) : Sys :=
  fold_left (fun s o => run_op o s) ops s.

(** [for c in choices: self.process_user_decision(c)], collecting the
    narratives; the first exception ends the loop. *)
Fixpoint decide_all (choices : list string) : M (list string) :=
  match choices with
  | [] => ret []
  | c :: cs =>
      r <- process_user_decision c ;;
      rs <- decide_all cs ;;
      ret (r :: rs)
  end.

(** A session: a fresh simulator, [start_simulation], then [ops]. *)
Definition session (career : string) (ops : list op) (w : World) : Sys :=
  run_ops ops (snd (start_simulation career (init, w))).

(** *** Auxiliary notions for the statements *)

(** The record [start_simulation] stores in [career_knowledge]. *)
Definition career_dict (career : string) : dict :=
  [ ("career", VStr career);
    ("researched", VBool true);
    ("typical_challenges", VStr ("Common challenges for " ++ career));
    ("tools", VStr ("Tools used in " ++ career)) ].

(** What the [try] block adds to [skills_demonstrated] for an answer. *)
Definition recorded_skills (answer : string) : list value :=
  match skills_used_of answer with
  | Val skills => skills
  | Raise _ => []
  end.

(** The object has been through [start_simulation]: the key ["career"] is
    set and the counter is not negative. *)
Definition started (self : MultiAgentCareerSimulator) : bool :=
  match dict_lookup (career_knowledge self) "career" with
  | Some _ => (0 <=? scenarios_completed (simulation_state self))%Z
  | None => false
  end.

(** The four agents are set by [__init__] and never replaced. *)
Definition same_agents (a b : MultiAgentCareerSimulator) : Prop :=
  research_agent a = research_agent b
  /\ scenario_agent a = scenario_agent b
  /\ evaluator a = evaluator b
  /\ narrator a = narrator b.

(** [time] is the label of the counter. *)
Definition time_in_step (self : MultiAgentCareerSimulator) : Prop :=
  nth_error times
    (Z.to_nat (Z.min (scenarios_completed (simulation_state self)) 5)) =
  Some (time (simulation_state self)).

End WithRuntime.

(** ** A scripted runtime

    A runtime to run the simulator on: the endpoint plays back a script of
    streams and records the requests it receives, the clock counts the
    calls, [json.loads] knows the documents of a table, [json.dumps] prints
    strings without escapes, and a set is visited from its last element to
    its first. *)

Record Script : Type := {
  replies : list (list Chunk);
  received : list Request;
  clock : nat
}.

Definition script_create (req : Request) (w : Script) : list Chunk * Script :=
  (hd [] (replies w),
   {| replies := tl (replies w);
      received := received w ++ [req];
      clock := clock w |}).

Definition script_now (w : Script) : string * Script :=
  ("2025-01-01T09:00:0" ++ NilZero.string_of_uint (Nat.to_uint (clock w)),
   {| replies := replies w;
      received := received w;
      clock := S (clock w) |}).

Fixpoint table_loads (table : list (string * value)) (s : string)
  : option value :=
  match table with
  | [] => None
  | (doc, v) :: table' =>
      if String.eqb s doc then Some v else table_loads table' s
  end.

Fixpoint plain_dumps (v : value) : string :=
  match v with
  | VNone => "null"
  | VBool true => "true"
  | VBool false => "false"
  | VInt n => NilZero.string_of_int (Z.to_int n)
  | VStr s => quoted s
  | VList l => "[" ++ String.concat ", " (map plain_dumps l) ++ "]"
  | VDict d =>
      "{" ++ String.concat ", "
               (map (fun kv : string * value =>
                       let (k, x) := kv in
                       quoted k ++ ": " ++ plain_dumps x) d)
          ++ "}"
  end.

Definition scripted (table : list (string * value)) : Runtime :=
  {| World := Script;
     chat_completions_create := script_create;
     datetime_now_isoformat := script_now;
     json_loads := table_loads table;
     json_dumps := plain_dumps;
     set_iteration := @rev value;
     set_iteration_perm := fun l => Permutation_sym (Permutation_rev l) |}.

(** ** Observing the requests

    Any runtime with a recorder at the endpoint: the world also holds the
    requests submitted so far, and [chat.completions.create] adds the
    request it receives before it answers as the runtime does. *)

Definition recording (RT : Runtime) : Runtime :=
  {| World := (@World RT * list Request)%type;
     chat_completions_create := fun req ws =>
       let (completion, w1) := @chat_completions_create RT req (fst ws) in
       (completion, (w1, (snd ws ++ [req])%list));
     datetime_now_isoformat := fun ws =>
       let (now, w1) := @datetime_now_isoformat RT (fst ws) in
       (now, (w1, snd ws));
     json_loads := @json_loads RT;
     json_dumps := @json_dumps RT;
     set_iteration := @set_iteration RT;
     set_iteration_perm := @set_iteration_perm RT |}.

(** A stream that delivers [text] on the answer channel in two chunks,
    after a chunk of reasoning. *)
Definition answer_stream (thought text1 text2 : string) : list Chunk :=
  [ {| delta_reasoning_content := Some thought; delta_content := None |};
    {| delta_reasoning_content := None; delta_content := Some text1 |};
    {| delta_reasoning_content := Some EmptyString;
       delta_content := Some text2 |} ].

(** The answer of an Evaluator that used the requested format. *)
Definition skills_document : string :=
  "{" ++ quoted "skills_used" ++ ": [" ++ quoted "plating" ++ ", "
      ++ quoted "timing" ++ ", " ++ quoted "plating" ++ "]}".

Definition chef_table : list (string * value) :=
  [ (skills_document,
     VDict [("skills_used",
             VList [VStr "plating"; VStr "timing"; VStr "plating"])]) ].

(** The script of a day as a chef: the three turns of the opening, then a
    decision the Evaluator answers in JSON and one it answers in prose. *)
Definition chef_script : Script :=
  {| replies :=
       [ answer_stream "hm" "{}" EmptyString;
         answer_stream "hm" "The oven " "fails.";
         answer_stream "hm" "It is 9 AM. " "The oven fails.";
         answer_stream "hm" "{" (substring 1 100 skills_document);
         answer_stream "hm" "A critic " "arrives.";
         answer_stream "hm" "You improvise. " "A critic arrives.";
         answer_stream "hm" "Well " "done!";
         answer_stream "hm" "The fish " "is late.";
         answer_stream "hm" "You wait. " "The fish is late." ];
     received := [];
     clock := 0 |}.

Definition chef_runtime : Runtime := scripted chef_table.

(** The chef's simulator after [start_simulation] and after the two
    decisions of the script. *)
Definition chef_started : @Sys chef_runtime :=
  @session chef_runtime "Chef" [] chef_script.

Definition chef_after_two : @Sys chef_runtime :=
  @session chef_runtime "Chef" [Decide "fix the oven"; Decide "hide"]
    chef_script.

(** A simulator whose [skills_demonstrated] holds a list, as after an
    Evaluator answer with [skills_used] a list of lists. *)
Definition nested_skills : MultiAgentCareerSimulator :=
  with_simulation_state
    (with_skills_demonstrated [VList [VStr "plating"]]
       (simulation_state (fst chef_started)))
    (fst chef_started).

(** The summary of the chef's day after the two decisions. *)
Definition chef_summary : Summary :=
  {| summary_career := VStr "Chef";
     summary_scenarios_completed := 2;
     summary_skills := [VStr "timing"; VStr "plating"];
     summary_summary := EmptyString;
     summary_agent_interactions := 9 |}.

(** An Evaluator that reports a skill as a number. *)
Definition number_document : string :=
  "{" ++ quoted "skills_used" ++ ": [7]}".

Definition number_table : list (string * value) :=
  [ (number_document, VDict [("skills_used", VList [VInt 7])]) ].



(** Evaluator answers that are valid JSON but not an object with a list
    of skills, and a runtime that reads them. *)
Definition list_document : string := "[1]".
Definition empty_document : string := "{}".
Definition null_document : string :=
  "{" ++ quoted "skills_used" ++ ": null}".
Definition count_document : string :=
  "{" ++ quoted "skills_used" ++ ": 7}".
Definition text_document : string :=
  "{" ++ quoted "skills_used" ++ ": " ++ quoted "ab" ++ "}".
Definition object_document : string :=
  "{" ++ quoted "skills_used" ++ ": {" ++ quoted "plating" ++ ": 1}}".

Definition shapes_table : list (string * value) :=
  [ (list_document, VList [VInt 1]);
    (empty_document, VDict []);
    (null_document, VDict [("skills_used", VNone)]);
    (count_document, VDict [("skills_used", VInt 7)]);
    (text_document, VDict [("skills_used", VStr "ab")]);
    (object_document,
     VDict [("skills_used", VDict [("plating", VInt 1)])]) ].

Definition shapes_runtime : Runtime := scripted shapes_table.

(** The opening, then an Evaluator that answers [answer]. *)
Definition shape_script (answer : string) : Script :=
  {| replies :=
       [ answer_stream "hm" "no" EmptyString;
         answer_stream "hm" "The oven " "fails.";
         answer_stream "hm" "It is 9 AM. " "The oven fails.";
         answer_stream "hm" answer EmptyString ];
     received := [];
     clock := 0 |}.

Definition shape_started (answer : string) : @Sys shapes_runtime :=
  @session shapes_runtime "Chef" [] (shape_script answer).

(** The skills after a decision the Evaluator answers with [answer]. *)
Definition shape_skills (answer : string) : list value :=
  skills_demonstrated (simulation_state (fst (snd
    (@process_user_decision shapes_runtime "improvise"
       (fst (shape_started answer), snd (shape_started answer)))))).

(** A runtime that reads both the chef's document and the one with a
    number. *)
Definition mixed_runtime : Runtime := scripted (chef_table ++ number_table).

(** ** The command-line driver [main]

    [main] reads the career and then one line per turn from standard
    input, which is the list of the lines still to be read; [input()] on
    the empty list raises [EOFError].  A character of a [str] is the
    [ascii] of its code point.  Of the calls to [print] only the
    [', '.join(...)] of the report is kept, since it can raise; [main]
    returns what the report prints. *)

(** [c.isspace()] *)
Definition is_space (c : ascii) : bool :=
  let n := nat_of_ascii c in
  ((9 <=? n) && (n <=? 13) || (28 <=? n) && (n <=? 32)
   || (n =? 133) || (n =? 160))%nat.

Fixpoint lstrip (s : string) : string :=
  match s with
  | EmptyString => EmptyString
  | String c s' => if is_space c then lstrip s' else s
  end.

Fixpoint rstrip (s : string) : string :=
  match s with
  | EmptyString => EmptyString
  | String c s' =>
      match rstrip s' with
      | EmptyString => if is_space c then EmptyString else String c EmptyString
      | r => String c r
      end
  end.

(** [s.strip()] *)
Definition str_strip (s : string) : string := rstrip (lstrip s).

Definition lower_char (c : ascii) : ascii :=
  let n := nat_of_ascii c in
  if ((65 <=? n) && (n <=? 90)
      || (192 <=? n) && (n <=? 222) && negb (n =? 215))%nat
  then ascii_of_nat (n + 32)
  else c.

(** [s.lower()] *)
Fixpoint str_lower (s : string) : string :=
  match s with
  | EmptyString => EmptyString
  | String c s' => String (lower_char c) (str_lower s')
  end.

(** The strings of a list of [str]; [TypeError] at the first other item. *)
Fixpoint str_items (l : list value) : Res (list string) :=
  match l with
  | [] => Val []
  | VStr s :: l' => res_bind (str_items l') (fun ss => Val (s :: ss))
  | _ :: _ => Raise TypeError
  end.

(** [sep.join(l)] *)
Definition py_join (sep : string) (l : list value) : Res string :=
  res_bind (str_items l) (fun ss => Val (String.concat sep ss)).

(** How a run of [main] ends: it returns, an exception of the simulator
    escapes, or [input()] finds the end of the input. *)
Inductive outcome (A : Type) : Type :=
| Finished (a : A)
| Crashed (e : exn)
| EOFError.

Arguments Finished {A} a.
Arguments Crashed {A} e.
Arguments EOFError {A}.

(** The values of the final report: the summary, the joined first five
    skills and [len(simulator.get_agent_log())]. *)
Record Report : Type := {
  report_summary : Summary;
  report_skills : string;
  report_log_length : Z
}.

Definition quit_words : list string := ["quit"; "exit"; "end"].

(** [user_input.lower() in ['quit', 'exit', 'end']] *)
Definition is_quit (user_input : string) : bool :=
  existsb (String.eqb (str_lower user_input)) quit_words.

Section Main.

Context {RT : Runtime}.

(** The loop [while simulator.simulation_state["scenarios_completed"] < 5]
    on the lines [stdin]. *)
Fixpoint decision_loop (stdin : list string) (s : Sys) : outcome unit * Sys :=
  if (scenarios_completed (simulation_state (fst s)) <? 5)%Z
  then match stdin with
       | [] => (EOFError, s)
       | line :: stdin' =>
           let user_input := str_strip line in
           if is_quit user_input then (Finished tt, s)
           else if String.eqb user_input EmptyString
           then decision_loop stdin' s
           else match process_user_decision user_input s with
                | (Val _, s1) => decision_loop stdin' s1
                | (Raise e, s1) => (Crashed e, s1)
                end
       end
  else (Finished tt, s).

(** The report after the loop. *)
Definition final_report (s : Sys) : outcome Report * Sys :=
  match generate_summary s with
  | (Raise e, s1) => (Crashed e, s1)
  | (Val summary, s1) =>
      match py_join ", " (firstn 5 (summary_skills summary)) with
      | Raise e => (Crashed e, s1)
      | Val skills =>
          match get_agent_log s1 with
          | (Raise e, s2) => (Crashed e, s2)
          | (Val log, s2) =>
              (Finished {| report_summary := summary;
                           report_skills := skills;
                           report_log_length := Z.of_nat (List.length log) |},
               s2)
          end
      end
  end.

Definition main (stdin : list string) (w : World) : outcome Report * Sys :=
  match stdin with
  | [] => (EOFError, (init, w))
  | career :: stdin' =>
      match start_simulation career (init, w) with
      | (Raise e, s) => (Crashed e, s)
      | (Val _, s) =>
          match decision_loop stdin' s with
          | (Finished _, s1) => final_report s1
          | (Crashed e, s1) => (Crashed e, s1)
          | (EOFError, s1) => (EOFError, s1)
          end
      end
  end.

(** *** Notions for the statements about [main] and the log *)

(** A line that makes the loop call [process_user_decision]. *)
Definition is_decision (line : string) : bool :=
  negb (is_quit (str_strip line))
  && negb (String.eqb (str_strip line) EmptyString).

(** A line the loop skips. *)
Definition is_blank (line : string) : bool :=
  String.eqb (str_strip line) EmptyString.

(** The roles of the turns an operation logs. *)
Definition logged_roles (o : op) : list string :=
  match o with
  | Start _ => ["Research"; "Scenario Designer"; "Narrator"]
  | Decide _ => ["Evaluator"; "Scenario Designer"; "Narrator"]
  | Summarize => []
  end.

Definition is_decide (o : op) : bool :=
  match o with
  | Decide _ => true
  | _ => false
  end.

(** [current_scenario] is the turn before the last one of the log, a
    Scenario Designer turn. *)
Definition scenario_in_log (self : MultiAgentCareerSimulator) : Prop :=
  exists earlier scenario narrative,
    agent_log self = (earlier ++ [scenario; narrative])%list
    /\ current_scenario (simulation_state self) = Some scenario
    /\ agent scenario = "Scenario Designer".

(** Every recorded skill comes from the answer of an Evaluator turn of the
    log. *)
Definition skills_from_log (self : MultiAgentCareerSimulator) : Prop :=
  forall v,
    In v (skills_demonstrated (simulation_state self)) ->
    exists t,
      In t (agent_log self)
      /\ agent t = "Evaluator"
      /\ In v (recorded_skills (action t)).

Definition is_str (v : value) : bool :=
  match v with
  | VStr _ => true
  | _ => false
  end.

End Main.

(** The chef's day at the command line. *)
Definition chef_stdin : list string :=
  ["Chef"; "fix the oven"; EmptyString; "hide"; " EXIT "; "taste"].

Definition chef_report : Report :=
  {| report_summary := chef_summary;
     report_skills := "timing, plating";
     report_log_length := 9 |}.

(** ** Python equality and [set] *)

Lemma py_eq_refl v : hashable v = true -> py_eq v v = true.
Proof.
  destruct v; cbn; try discriminate; intros _.
  - reflexivity.
  - apply Bool.eqb_reflx.
  - apply Z.eqb_refl.
  - apply String.eqb_refl.
Qed.

Lemma py_eq_sym a b : py_eq a b = py_eq b a.
Proof.
  destruct a, b; cbn; try reflexivity.
  - destruct b, b0; reflexivity.
  - apply Z.eqb_sym.
  - apply Z.eqb_sym.
  - apply Z.eqb_sym.
  - apply String.eqb_sym.
Qed.

Lemma py_eq_str s v : py_eq (VStr s) v = true -> v = VStr s.
Proof.
  destruct v; cbn; try discriminate.
  intros H. apply String.eqb_eq in H. now subst.
Qed.

Lemma set_like_nil : set_like [].
Proof.
  repeat split; [constructor | constructor | intros a b []].
Qed.

Lemma set_like_snoc seen x :
  set_like seen ->
  hashable x = true ->
  existsb (py_eq x) seen = false ->
  set_like (seen ++ [x]).
Proof.
  intros (Hh & Hn & Hu) Hx He.
  assert (Hfresh : forall y, In y seen -> py_eq x y = false).
  { intros y Hy. destruct (py_eq x y) eqn:E; [|reflexivity].
    assert (existsb (py_eq x) seen = true)
      by (apply existsb_exists; eauto).
    congruence. }
  repeat split.
  - apply Forall_app. split; [exact Hh | repeat constructor; exact Hx].
  - apply NoDup_app; [exact Hn | repeat constructor; intros [] | ].
    intros y Hy [<-|[]]. specialize (Hfresh _ Hy).
    rewrite py_eq_refl in Hfresh by exact Hx. discriminate.
  - intros a b Ha Hb Hab.
    apply in_app_or in Ha. apply in_app_or in Hb.
    destruct Ha as [Ha|[<-|[]]], Hb as [Hb|[<-|[]]].
    + now apply Hu.
    + rewrite py_eq_sym, (Hfresh _ Ha) in Hab. discriminate.
    + rewrite (Hfresh _ Hb) in Hab. discriminate.
    + reflexivity.
Qed.

(** An element once in the set stays in it. *)
Lemma set_insert_all_keeps xs : forall seen r z,
  set_insert_all seen xs = Val r -> In z seen -> In z r.
Proof.
  induction xs as [|a xs IH]; intros seen r z; cbn [set_insert_all].
  - now intros [= <-].
  - destruct (hashable a); [|discriminate].
    destruct (existsb (py_eq a) seen); intros Hr Hz.
    + eapply IH; eauto.
    + eapply IH; [exact Hr|]. apply in_or_app. now left.
Qed.

Lemma set_insert_all_val xs : forall seen r,
  set_like seen ->
  set_insert_all seen xs = Val r ->
  set_like r
  /\ (forall x, In x r -> In x seen \/ In x xs)
  /\ (forall x, In x seen \/ In x xs ->
        exists y, In y r /\ py_eq x y = true).
Proof.
  induction xs as [|x xs IH]; intros seen r Hseen; cbn [set_insert_all].
  - intros [= <-]. split; [exact Hseen|]. split; [tauto|].
    intros x [Hx|[]]. exists x. split; [exact Hx|].
    destruct Hseen as (Hh & _). rewrite Forall_forall in Hh.
    now apply py_eq_refl, Hh.
  - destruct (hashable x) eqn:Hx; [|discriminate].
    destruct (existsb (py_eq x) seen) eqn:He; intros Hr.
    + destruct (IH _ _ Hseen Hr) as (Hl & Hin & Hcov).
      split; [exact Hl|]. split.
      * intros y Hy. destruct (Hin _ Hy); [left | right; right]; assumption.
      * intros y [Hy|[<-|Hy]]; [apply Hcov; now left | | apply Hcov; now right].
        apply existsb_exists in He. destruct He as (z & Hz & Hxz).
        exists z. split; [|exact Hxz].
        eapply set_insert_all_keeps; eauto.
    + assert (Hs' : set_like (seen ++ [x])) by now apply set_like_snoc.
      destruct (IH _ _ Hs' Hr) as (Hl & Hin & Hcov).
      split; [exact Hl|]. split.
      * intros y Hy. destruct (Hin _ Hy) as [H|H]; [|right; now right].
        apply in_app_or in H. destruct H as [H|[<-|[]]];
          [now left | right; now left].
      * intros y [Hy|[<-|Hy]]; apply Hcov.
        -- left. apply in_or_app. now left.
        -- left. apply in_or_app. right. now left.
        -- now right.
Qed.

(** [set(xs)] raises exactly when an element is unhashable, and then it is
    [TypeError]. *)
Lemma set_insert_all_raise xs : forall seen,
  match set_insert_all seen xs with
  | Val _ => forallb hashable xs = true
  | Raise e => e = TypeError /\ forallb hashable xs = false
  end.
Proof.
  induction xs as [|x xs IH]; intros seen; cbn [set_insert_all forallb].
  - reflexivity.
  - destruct (hashable x); cbn [andb]; [|split; reflexivity].
    destruct (existsb (py_eq x) seen); apply IH.
Qed.

(** ** Running the methods *)

Ltac unfold_monad :=
  unfold agent_log_append, update_state;
  unfold bind, ret, get_self, update_self, io, lift;
  cbv beta iota zeta; cbn [fst snd].

Ltac fields :=
  cbn [fst snd research_agent scenario_agent evaluator narrator
       career_knowledge simulation_state agent_log time scenarios_completed
       skills_demonstrated current_scenario with_simulation_state
       with_agent_log with_career_knowledge with_time with_current_scenario
       with_scenarios_completed with_skills_demonstrated].

Ltac turn :=
  match goal with
  | |- context [think_and_act ?a ?p ?c ?w] =>
      let t := fresh "t" in
      let w' := fresh "w" in
      destruct (think_and_act a p c w) as [t w'];
      cbv beta iota zeta; fields
  end.

Section Running.

Context {RT : Runtime}.

Lemma start_simulation_run career self w :
  exists research_result scenario_result narrative_result w',
    start_simulation career (self, w) =
      (Val (action narrative_result),
       (with_simulation_state
          (with_current_scenario (Some scenario_result)
             (simulation_state self))
          (with_agent_log
             (agent_log self
                ++ [research_result; scenario_result; narrative_result])
             (with_career_knowledge (career_dict career) self)),
        w')).
Proof.
  unfold start_simulation. unfold_monad.
  repeat turn.
  do 4 eexists.
  unfold with_simulation_state, with_agent_log, with_career_knowledge.
  fields. rewrite <- !app_assoc. reflexivity.
Qed.

Lemma py_index_times n :
  (0 <= n)%Z ->
  py_index times (Z.min n (Z.of_nat (List.length times) - 1)) =
    Val (nth (Z.to_nat (Z.min n 5)) times "5:30 PM").
Proof.
  intros Hn. cbn [times List.length]. change (Z.of_nat 6 - 1)%Z with 5%Z.
  assert (H : exists k, (k <= 5)%nat /\ Z.min n 5 = Z.of_nat k).
  { exists (Z.to_nat (Z.min n 5)). split; lia. }
  destruct H as (k & Hk & ->). rewrite Nat2Z.id.
  do 6 (destruct k as [|k]; [reflexivity|]). lia.
Qed.

Lemma process_user_decision_run user_choice self w :
  started self = true ->
  exists eval_result next_scenario narrative w',
    process_user_decision user_choice (self, w) =
      (Val (action narrative),
       (with_simulation_state
          {| time :=
               nth (Z.to_nat
                      (Z.min (scenarios_completed (simulation_state self) + 1)
                             5))
                   times "5:30 PM";
             scenarios_completed :=
               (scenarios_completed (simulation_state self) + 1)%Z;
             skills_demonstrated :=
               skills_demonstrated (simulation_state self)
                 ++ recorded_skills (action eval_result);
             current_scenario := Some next_scenario |}
          (with_agent_log
             (agent_log self ++ [eval_result; next_scenario; narrative])
             self),
        w'))
    /\ agent eval_result = role (evaluator self).
Proof.
  unfold started. intros Hs.
  destruct (dict_lookup (career_knowledge self) "career") as [career|] eqn:Hc;
    [|discriminate].
  apply Z.leb_le in Hs.
  unfold process_user_decision, _advance_time, dict_getitem.
  unfold_monad. rewrite Hc. cbv beta iota zeta; cbn [fst snd].
  destruct (think_and_act (evaluator self) _ _ w) as [e w1] eqn:He.
  cbv beta iota zeta; cbn [fst snd].
  assert (Hag : agent e = role (evaluator self)).
  { unfold think_and_act in He.
    destruct (_call_model _ _ _) as [resp w']. 
    destruct (datetime_now_isoformat w') as [now w''].
    inversion He. reflexivity. }
  exists e. unfold recorded_skills.
  destruct (skills_used_of (action e)) as [skills|err];
    unfold_monad; fields;
    (rewrite py_index_times by lia);
    cbv beta iota zeta; fields; rewrite Hc;
    cbv beta iota zeta; fields;
    repeat turn;
    (do 3 eexists; split; [|exact Hag]);
    unfold with_simulation_state, with_agent_log; fields;
    rewrite <- ?app_assoc, ?app_nil_r; reflexivity.
Qed.

(** An arbitrary state: the call raises [KeyError] before anything happens
    when the key ["career"] is missing; otherwise the counter moves by one,
    whether or not the call then returns. *)
Lemma process_user_decision_any user_choice self w :
  let s' := snd (process_user_decision user_choice (self, w)) in
  career_knowledge (fst s') = career_knowledge self
  /\ match dict_lookup (career_knowledge self) "career" with
     | Some _ =>
         scenarios_completed (simulation_state (fst s')) =
           (scenarios_completed (simulation_state self) + 1)%Z
     | None =>
         process_user_decision user_choice (self, w) =
           (Raise (KeyError "career"), (self, w))
     end.
Proof.
  unfold process_user_decision, _advance_time, dict_getitem.
  unfold_monad.
  destruct (dict_lookup (career_knowledge self) "career") as [career|] eqn:Hc;
    cbv beta iota zeta; fields; [|split; reflexivity].
  turn.
  destruct (skills_used_of (action t)) as [skills|err];
    unfold_monad; fields;
    (destruct (py_index times _) as [t'|err'];
     cbv beta iota zeta; fields; [|split; reflexivity]);
    rewrite Hc; cbv beta iota zeta; fields;
    repeat turn; split; reflexivity.
Qed.

Lemma generate_summary_run self w :
  exists eval_summary narrative_summary w',
    generate_summary (self, w) =
      (res_bind (dict_getitem (career_knowledge self) "career") (fun career =>
       res_bind (py_set (skills_demonstrated (simulation_state self)))
         (fun skills =>
       Val {| summary_career := career;
              summary_scenarios_completed :=
                scenarios_completed (simulation_state self);
              summary_skills := set_iteration skills;
              summary_summary := action narrative_summary;
              summary_agent_interactions :=
                Z.of_nat (List.length (agent_log self)) |})),
       (self, w'))
    /\ agent eval_summary = role (evaluator self)
    /\ agent narrative_summary = role (narrator self).
Proof.
  unfold generate_summary. unfold_monad.
  destruct (think_and_act (evaluator self) _ _ w) as [e w1] eqn:He.
  cbv beta iota zeta; fields.
  destruct (think_and_act (narrator self) _ _ w1) as [n w2] eqn:Hn.
  cbv beta iota zeta; fields.
  exists e, n, w2. split; [|split].
  - destruct (dict_getitem (career_knowledge self) "career");
      cbn [res_bind]; [|reflexivity].
    destruct (py_set _); reflexivity.
  - unfold think_and_act in He.
    destruct (_call_model _ _ _) as [resp w'].
    destruct (datetime_now_isoformat w') as [now w''].
    inversion He. reflexivity.
  - unfold think_and_act in Hn.
    destruct (_call_model _ _ _) as [resp w'].
    destruct (datetime_now_isoformat w') as [now w''].
    inversion Hn. reflexivity.
Qed.

(** [generate_summary] never writes to the object. *)
Lemma generate_summary_self self w :
  fst (snd (generate_summary (self, w))) = self.
Proof.
  destruct (generate_summary_run self w) as (e & n & w' & -> & _).
  reflexivity.
Qed.

(** *** Invariants of a started simulator *)

Lemma nth_times n :
  (0 <= n)%Z ->
  nth_error times (Z.to_nat (Z.min n 5)) =
    Some (nth (Z.to_nat (Z.min n 5)) times "5:30 PM").
Proof.
  intros Hn. apply nth_error_nth'. cbn [times List.length]. lia.
Qed.

Lemma started_start_simulation career self w :
  (0 <= scenarios_completed (simulation_state self))%Z ->
  started (fst (snd (start_simulation career (self, w)))) = true.
Proof.
  intros H. destruct (start_simulation_run career self w)
    as (r1 & r2 & r3 & w' & ->).
  unfold started; fields. cbn [career_dict dict_lookup].
  rewrite String.eqb_refl. now apply Z.leb_le.
Qed.

Lemma started_counter self :
  started self = true ->
  (0 <= scenarios_completed (simulation_state self))%Z.
Proof.
  unfold started. destruct (dict_lookup _ _); [|discriminate].
  apply Z.leb_le.
Qed.

Lemma started_run_op o s :
  started (fst s) = true -> started (fst (run_op o s)) = true.
Proof.
  destruct s as [self w]. cbn [fst]. intros H.
  destruct o as [career|c|]; cbn [run_op].
  - apply started_start_simulation. now apply started_counter.
  - destruct (process_user_decision_run c self w H)
      as (e & n & r & w' & -> & _).
    revert H. unfold started; fields.
    destruct (dict_lookup _ _); [|discriminate].
    intros H. apply Z.leb_le in H. apply Z.leb_le. lia.
  - now rewrite generate_summary_self.
Qed.

Lemma started_run_ops ops : forall s,
  started (fst s) = true -> started (fst (run_ops ops s)) = true.
Proof.
  unfold run_ops.
  induction ops as [|o ops IH]; intros s H; cbn [fold_left];
    [exact H | apply IH, started_run_op, H].
Qed.

Lemma started_session career ops w :
  started (fst (session career ops w)) = true.
Proof.
  apply started_run_ops, started_start_simulation. cbn. lia.
Qed.

Lemma time_in_step_run_op o s :
  started (fst s) = true ->
  time_in_step (fst s) -> time_in_step (fst (run_op o s)).
Proof.
  destruct s as [self w]. cbn [fst]. intros Hs H.
  destruct o as [career|c|]; cbn [run_op].
  - destruct (start_simulation_run career self w)
      as (r1 & r2 & r3 & w' & ->). exact H.
  - destruct (process_user_decision_run c self w Hs)
      as (e & n & r & w' & -> & _).
    unfold time_in_step; fields. apply nth_times.
    apply started_counter in Hs. lia.
  - now rewrite generate_summary_self.
Qed.

End Running.

(** ** Strings *)

Lemma append_nil_r (s : string) : s ++ EmptyString = s.
Proof. induction s as [|c s IH]; cbn; [reflexivity | now rewrite IH]. Qed.

Lemma append_assoc (a b c : string) : (a ++ b) ++ c = a ++ (b ++ c).
Proof. induction a as [|x a IH]; cbn; [reflexivity | now rewrite IH]. Qed.

Lemma concat_cons (x : string) (xs : list string) :
  String.concat EmptyString (x :: xs) = x ++ String.concat EmptyString xs.
Proof.
  destruct xs as [|y ys]; cbn [String.concat];
    [now rewrite append_nil_r | reflexivity].
Qed.

Lemma accumulate_text acc chunk :
  accumulate acc chunk =
    (fst acc ++ delta_text (delta_reasoning_content chunk),
     snd acc ++ delta_text (delta_content chunk)).
Proof.
  destruct acc as [r c]. unfold accumulate, truthy. cbn [fst snd].
  destruct (delta_reasoning_content chunk) as [x|],
           (delta_content chunk) as [y|]; cbn [delta_text];
    repeat match goal with
    | |- context [String.eqb ?s EmptyString] =>
        destruct (String.eqb_spec s EmptyString); subst; cbn [negb]
    end;
    now rewrite ?append_nil_r.
Qed.

Lemma fold_accumulate completion : forall acc,
  fold_left accumulate completion acc =
    (fst acc ++ String.concat EmptyString
       (map (fun c => delta_text (delta_reasoning_content c)) completion),
     snd acc ++ String.concat EmptyString
       (map (fun c => delta_text (delta_content c)) completion)).
Proof.
  induction completion as [|chunk completion IH]; intros acc.
  - cbn. rewrite !append_nil_r. now destruct acc.
  - cbn [fold_left map]. rewrite IH, accumulate_text. cbn [fst snd].
    now rewrite !concat_cons, !append_assoc.
Qed.

(** ** Loops of decisions and the agents of a session *)

Section Sessions.

Context {RT : Runtime}.

Lemma decide_all_run choices : forall self w,
  started self = true ->
  exists narratives self' w',
    decide_all choices (self, w) = (Val narratives, (self', w'))
    /\ List.length narratives = List.length choices
    /\ started self' = true
    /\ scenarios_completed (simulation_state self') =
         (scenarios_completed (simulation_state self)
            + Z.of_nat (List.length choices))%Z
    /\ (time_in_step self -> time_in_step self')
    /\ List.length (agent_log self') =
         (List.length (agent_log self) + 3 * List.length choices)%nat.
Proof.
  induction choices as [|c cs IH]; intros self w Hs.
  - exists [], self, w. cbn [decide_all List.length]. unfold ret.
    repeat split; auto; lia.
  - pose proof (started_run_op (Decide c) (self, w) Hs) as Hs'.
    pose proof (@time_in_step_run_op _ (Decide c) (self, w) Hs) as Ht.
    cbn [run_op fst] in Hs', Ht.
    cbn [decide_all]. unfold bind at 1.
    destruct (process_user_decision_run c self w Hs)
      as (e & n & r & w1 & Hrun & _).
    rewrite Hrun in Hs', Ht |- *. cbn [fst snd] in Hs', Ht.
    match type of Hs' with started ?x = true => set (self1 := x) in * end.
    destruct (IH self1 w1 Hs') as (outs & self' & w' & Hd & Hl & Hst & Hsc & Hti & Hlog).
    exists (action r :: outs), self', w'.
    unfold bind, ret. rewrite Hd.
    repeat split.
    + cbn [List.length]. now rewrite Hl.
    + exact Hst.
    + rewrite Hsc. subst self1. cbn. lia.
    + intros H. apply Hti, Ht, H.
    + rewrite Hlog. subst self1. cbn. rewrite length_app. cbn. lia.
Qed.

Lemma same_agents_run_op o s :
  started (fst s) = true -> same_agents (fst (run_op o s)) (fst s).
Proof.
  destruct s as [self w]. cbn [fst]. intros Hs.
  destruct o as [career|c|]; cbn [run_op].
  - destruct (start_simulation_run career self w)
      as (r1 & r2 & r3 & w' & ->). repeat split.
  - destruct (process_user_decision_run c self w Hs)
      as (e & n & r & w' & -> & _). repeat split.
  - rewrite generate_summary_self. repeat split.
Qed.

Lemma same_agents_session career ops w :
  same_agents (fst (session career ops w)) init.
Proof.
  unfold session, run_ops.
  assert (H0 : same_agents (fst (snd (start_simulation career (init, w)))) init).
  { destruct (start_simulation_run career init w)
      as (r1 & r2 & r3 & w' & ->). repeat split. }
  assert (Hs : started (fst (snd (start_simulation career (init, w)))) = true)
    by (apply started_start_simulation; cbn; lia).
  revert H0 Hs. generalize (snd (start_simulation career (init, w))).
  induction ops as [|o ops IH]; intros s H0 Hs; cbn [fold_left]; [exact H0|].
  apply IH; [|now apply started_run_op].
  destruct (same_agents_run_op o s Hs) as (A & B & C & D).
  destruct H0 as (A0 & B0 & C0 & D0).
  repeat split; congruence.
Qed.

End Sessions.

(** ** Properties of the orchestration contract *)

Section Properties.

Context {RT : Runtime}.

(** C1: on a fresh simulator, [start_simulation] followed by [N] calls of
    [process_user_decision] returns from every call, whatever the model
    streams, and leaves [scenarios_completed] equal to [N] and [time] equal
    to the entry of index [min(N, 5)] of the six labels. *)
Theorem scenarios_completed_and_time_after_decisions career choices w :
  exists narratives s',
    bind (start_simulation career) (fun _ => decide_all choices) (init, w) =
      (Val narratives, s')
    /\ List.length narratives = List.length choices
    /\ scenarios_completed (simulation_state (fst s')) =
         Z.of_nat (List.length choices)
    /\ nth_error
         ["9:00 AM"; "10:30 AM"; "12:00 PM"; "2:00 PM"; "4:00 PM"; "5:30 PM"]
         (Nat.min (List.length choices) 5) =
       Some (time (simulation_state (fst s'))).
Proof.
  unfold bind at 1.
  pose proof (started_start_simulation career init w) as Hs.
  destruct (start_simulation_run career init w)
    as (r1 & r2 & r3 & w1 & Hrun).
  rewrite Hrun in Hs |- *. cbn [fst snd] in Hs.
  match type of Hs with _ -> started ?x = true => set (self1 := x) in * end.
  destruct (decide_all_run choices self1 w1) as
    (outs & self' & w' & Hd & Hl & _ & Hsc & Hti & _);
    [apply Hs; cbn; lia|].
  exists outs, (self', w'). cbn [fst].
  assert (Hc : scenarios_completed (simulation_state self') =
               Z.of_nat (List.length choices))
    by (rewrite Hsc; subst self1; cbn; lia).
  repeat split; [exact Hd | exact Hl | exact Hc |].
  assert (H0 : time_in_step self1) by reflexivity.
  specialize (Hti H0). unfold time_in_step in Hti.
  rewrite Hc in Hti. rewrite <- Hti. unfold times. f_equal. lia.
Qed.

(** C4: on a fresh simulator [start_simulation] returns with a log of
    length 3, and every later call of [process_user_decision] -- after any
    calls in between -- returns with the log 3 entries longer. *)
Theorem agent_log_grows_by_three career w :
  (exists opening s,
     start_simulation career (init, w) = (Val opening, s)
     /\ List.length (agent_log (fst s)) = 3%nat)
  /\ forall ops user_choice,
       exists narrative s',
         process_user_decision user_choice (session career ops w) =
           (Val narrative, s')
         /\ List.length (agent_log (fst s')) =
              (List.length (agent_log (fst (session career ops w))) + 3)%nat.
Proof.
  split.
  - destruct (start_simulation_run career init w)
      as (r1 & r2 & r3 & w1 & ->).
    do 2 eexists. split; reflexivity.
  - intros ops c. pose proof (started_session career ops w) as Hs.
    destruct (session career ops w) as [self w1]. cbn [fst] in *.
    destruct (process_user_decision_run c self w1 Hs)
      as (e & n & r & w2 & -> & _).
    do 2 eexists. split; [reflexivity|].
    cbn. now rewrite length_app.
Qed.

(** C2, what the code does: [generate_summary] appends nothing to the
    log.  After [start_simulation] on a fresh simulator the summary is
    returned with the log still of length 3, and [agent_interactions] is
    that length. *)
Theorem generate_summary_keeps_agent_log career w :
  exists summary s',
    generate_summary (session career [] w) = (Val summary, s')
    /\ agent_log (fst s') = agent_log (fst (session career [] w))
    /\ List.length (agent_log (fst s')) = 3%nat
    /\ summary_agent_interactions summary = 3%Z.
Proof.
  unfold session, run_ops. cbn [fold_left].
  destruct (start_simulation_run career init w)
    as (r1 & r2 & r3 & w1 & ->). cbn [snd].
  match goal with |- context [generate_summary (?x, w1)] =>
    destruct (generate_summary_run x w1) as (e & n & w2 & -> & _)
  end.
  fields. unfold dict_getitem, career_dict. cbn [dict_lookup].
  rewrite String.eqb_refl.
  cbn [res_bind init simulation_state skills_demonstrated agent_log
       py_set set_insert_all app List.length].
  do 2 eexists. repeat split.
Qed.

(** C3: in a started simulator [process_user_decision] returns; the first
    entry it logs is the Evaluator's turn; when the answer of that turn is
    not valid JSON [skills_demonstrated] is unchanged, and when it is a
    JSON object whose [skills_used] is a list, the items of the list are
    appended to [skills_demonstrated]. *)
Theorem skills_recorded_from_evaluator_answer user_choice self w :
  started self = true ->
  exists eval_result next_scenario narrative s',
    process_user_decision user_choice (self, w) =
      (Val (action narrative), s')
    /\ agent_log (fst s') =
         (agent_log self ++ [eval_result; next_scenario; narrative])%list
    /\ agent eval_result = role (evaluator self)
    /\ (json_loads (action eval_result) = None ->
        skills_demonstrated (simulation_state (fst s')) =
          skills_demonstrated (simulation_state self))
    /\ (forall d l,
          json_loads (action eval_result) = Some (VDict d) ->
          dict_lookup d "skills_used" = Some (VList l) ->
          skills_demonstrated (simulation_state (fst s')) =
            (skills_demonstrated (simulation_state self) ++ l)%list).
Proof.
  intros Hs.
  destruct (process_user_decision_run user_choice self w Hs)
    as (e & n & r & w' & -> & Hag).
  exists e, n, r. eexists. split; [reflexivity|]. fields.
  split; [reflexivity|]. split; [exact Hag|].
  unfold recorded_skills, skills_used_of. split.
  - intros ->. now rewrite app_nil_r.
  - intros d l -> Hl. cbn [py_get res_bind]. now rewrite Hl.
Qed.

(** C5: whenever [generate_summary] returns, its [skills] has no duplicate
    entry, not even two entries equal for [==]; every entry comes from
    [skills_demonstrated] and every element of [skills_demonstrated] is
    equal to an entry; a string is an entry exactly when it occurs in
    [skills_demonstrated].  The call raises only for a missing
    ["career"] key or an unhashable element. *)
Theorem summary_skills_deduplicated self w :
  match fst (generate_summary (self, w)) with
  | Val summary =>
      NoDup (summary_skills summary)
      /\ (forall a b,
            In a (summary_skills summary) -> In b (summary_skills summary) ->
            py_eq a b = true -> a = b)
      /\ (forall x,
            In x (summary_skills summary) ->
            In x (skills_demonstrated (simulation_state self)))
      /\ (forall x,
            In x (skills_demonstrated (simulation_state self)) ->
            exists y, In y (summary_skills summary) /\ py_eq x y = true)
      /\ (forall skill : string,
            In (VStr skill) (summary_skills summary) <->
            In (VStr skill) (skills_demonstrated (simulation_state self)))
  | Raise e =>
      (e = KeyError "career"
       /\ dict_lookup (career_knowledge self) "career" = None)
      \/ (e = TypeError
          /\ forallb hashable (skills_demonstrated (simulation_state self))
             = false)
  end.
Proof.
  destruct (generate_summary_run self w) as (e & n & w' & -> & _).
  cbn [fst]. unfold dict_getitem.
  destruct (dict_lookup (career_knowledge self) "career") as [career|];
    cbn [res_bind]; [|left; split; reflexivity].
  unfold py_set.
  pose proof (set_insert_all_raise
                (skills_demonstrated (simulation_state self)) []) as Hr.
  destruct (set_insert_all [] (skills_demonstrated (simulation_state self)))
    as [skills|err] eqn:Hset; cbn [res_bind]; [|right; exact Hr].
  cbn [summary_skills].
  destruct (set_insert_all_val _ set_like_nil Hset)
    as ((_ & Hnd & Huniq) & Hin & Hcov).
  pose proof (set_iteration_perm skills) as Hp.
  assert (Hto : forall x, In x (set_iteration skills) -> In x skills)
    by (intros x; apply Permutation_in, Hp).
  assert (Hfrom : forall x, In x skills -> In x (set_iteration skills))
    by (intros x; apply Permutation_in, Permutation_sym, Hp).
  split; [|split; [|split; [|split]]].
  - eapply Permutation_NoDup; [apply Permutation_sym, Hp | exact Hnd].
  - intros a b Ha Hb. apply Huniq; auto.
  - intros x Hx. destruct (Hin x (Hto _ Hx)) as [[]|H]. exact H.
  - intros x Hx. destruct (Hcov x (or_intror Hx)) as (y & Hy & Hxy).
    exists y. split; [apply Hfrom, Hy | exact Hxy].
  - intros skill. split.
    + intros Hx. destruct (Hin _ (Hto _ Hx)) as [[]|H]. exact H.
    + intros Hx. destruct (Hcov _ (or_intror Hx)) as (y & Hy & Hxy).
      apply py_eq_str in Hxy. subst y. apply Hfrom, Hy.
Qed.

(** C6: [start_simulation] and [generate_summary] leave
    [scenarios_completed] as it is; a call of [process_user_decision] that
    returns has added exactly 1 and one that raises has not lowered it; in
    a session every such call returns; hence no sequence of operations
    lowers the counter. *)
Theorem scenarios_completed_never_decreases :
  (forall career s,
     scenarios_completed (simulation_state
       (fst (snd (start_simulation career s)))) =
     scenarios_completed (simulation_state (fst s)))
  /\ (forall s,
        scenarios_completed (simulation_state
          (fst (snd (generate_summary s)))) =
        scenarios_completed (simulation_state (fst s)))
  /\ (forall user_choice s,
        match fst (process_user_decision user_choice s) with
        | Val _ =>
            scenarios_completed (simulation_state
              (fst (snd (process_user_decision user_choice s)))) =
            (scenarios_completed (simulation_state (fst s)) + 1)%Z
        | Raise _ =>
            (scenarios_completed (simulation_state (fst s)) <=
             scenarios_completed (simulation_state
               (fst (snd (process_user_decision user_choice s)))))%Z
        end)
  /\ (forall career ops user_choice w,
        exists narrative s',
          process_user_decision user_choice (session career ops w) =
            (Val narrative, s')
          /\ scenarios_completed (simulation_state (fst s')) =
             (scenarios_completed
                (simulation_state (fst (session career ops w))) + 1)%Z)
  /\ (forall ops s,
        (scenarios_completed (simulation_state (fst s)) <=
         scenarios_completed (simulation_state (fst (run_ops ops s))))%Z).
Proof.
  assert (Hstart : forall career s,
     scenarios_completed (simulation_state
       (fst (snd (start_simulation career s)))) =
     scenarios_completed (simulation_state (fst s))).
  { intros career [self w].
    destruct (start_simulation_run career self w)
      as (r1 & r2 & r3 & w' & ->). reflexivity. }
  assert (Hsum : forall s,
     scenarios_completed (simulation_state
       (fst (snd (generate_summary s)))) =
     scenarios_completed (simulation_state (fst s))).
  { intros [self w]. now rewrite generate_summary_self. }
  assert (Hdec : forall user_choice s,
     (scenarios_completed (simulation_state (fst s)) <=
      scenarios_completed (simulation_state
        (fst (snd (process_user_decision user_choice s)))))%Z
     /\ (forall r, fst (process_user_decision user_choice s) = Val r ->
         scenarios_completed (simulation_state
           (fst (snd (process_user_decision user_choice s)))) =
         (scenarios_completed (simulation_state (fst s)) + 1)%Z)).
  { intros c [self w].
    destruct (process_user_decision_any c self w) as (_ & H).
    destruct (dict_lookup (career_knowledge self) "career").
    - cbn [fst]. split; [lia | intros _ _; exact H].
    - rewrite H. cbn [fst snd]. split; [lia | discriminate]. }
  split; [exact Hstart|]. split; [exact Hsum|]. split; [|split].
  - intros c s. destruct (Hdec c s) as (Hle & Hval).
    destruct (fst (process_user_decision c s)) as [r|e];
      [now apply (Hval r) | exact Hle].
  - intros career ops c w. pose proof (started_session career ops w) as Hs.
    destruct (session career ops w) as [self w1]. cbn [fst] in *.
    destruct (process_user_decision_run c self w1 Hs)
      as (e & n & r & w2 & -> & _).
    do 2 eexists. split; reflexivity.
  - unfold run_ops. induction ops as [|o ops IH]; intros s; cbn [fold_left].
    + lia.
    + etransitivity; [|apply IH].
      destruct o as [career|c|]; cbn [run_op].
      * rewrite Hstart. lia.
      * apply Hdec.
      * rewrite Hsum. lia.
Qed.

(** C7: [start_simulation] returns, whatever the Research turn answers,
    with [career_knowledge] the four-key record built from the career
    string; [process_user_decision] and [generate_summary] never change
    [career_knowledge]. *)
Theorem career_knowledge_set_at_start :
  (forall career self w,
     exists opening s',
       start_simulation career (self, w) = (Val opening, s')
       /\ career_knowledge (fst s') =
            [ ("career", VStr career);
              ("researched", VBool true);
              ("typical_challenges",
                VStr ("Common challenges for " ++ career));
              ("tools", VStr ("Tools used in " ++ career)) ])
  /\ (forall user_choice s,
        career_knowledge (fst (snd (process_user_decision user_choice s))) =
        career_knowledge (fst s))
  /\ (forall s,
        career_knowledge (fst (snd (generate_summary s))) =
        career_knowledge (fst s)).
Proof.
  split; [|split].
  - intros career self w.
    destruct (start_simulation_run career self w)
      as (r1 & r2 & r3 & w' & ->).
    do 2 eexists. split; reflexivity.
  - intros c [self w]. apply process_user_decision_any.
  - intros [self w]. now rewrite generate_summary_self.
Qed.

(** C8: the user message is the task text alone when the context is absent
    or empty, and otherwise ["Context: "], the serialized context, two
    line feeds, ["Task: "] and the task text.  [think_and_act] submits it:
    with a recorder at the endpoint of any runtime, a turn adds exactly
    one request to the requests submitted so far, the request carries the
    system prompt of the role followed by that user message, and the turn
    returns what it returns without the recorder. *)
Theorem user_message_format a prompt context x d w sent :
  _format_prompt prompt None = prompt
  /\ _format_prompt prompt (Some []) = prompt
  /\ _format_prompt prompt (Some (x :: d)) =
       "Context: " ++ json_dumps (VDict (x :: d))
         ++ String "010" (String "010" ("Task: " ++ prompt))
  /\ build_messages a prompt context =
       [ {| msg_role := "system"; msg_content := get_system_prompt a |};
         {| msg_role := "user";
            msg_content := _format_prompt prompt context |} ]
  /\ think_and_act a prompt context w =
       think_and_act a (_format_prompt prompt context) None w
  /\ snd (snd (@think_and_act (recording RT) a prompt context (w, sent))) =
       (sent ++
        [ {| req_model := model a;
             req_messages :=
               [ {| msg_role := "system";
                    msg_content := get_system_prompt a |};
                 {| msg_role := "user";
                    msg_content := _format_prompt prompt context |} ];
             req_max_tokens := 1024;
             req_stream := true;
             req_min_thinking_tokens := 256;
             req_max_thinking_tokens := 512 |} ])%list
  /\ fst (@think_and_act (recording RT) a prompt context (w, sent)) =
       fst (think_and_act a prompt context w)
  /\ fst (snd (@think_and_act (recording RT) a prompt context (w, sent))) =
       snd (think_and_act a prompt context w).
Proof.
  do 5 (split; [reflexivity|]).
  unfold think_and_act, _call_model.
  cbn [chat_completions_create datetime_now_isoformat recording fst snd].
  change (@json_dumps (recording RT)) with (@json_dumps RT).
  destruct (chat_completions_create
              (completion_request a (build_messages a prompt context)) w)
    as [completion w1].
  cbn [fst snd].
  destruct (datetime_now_isoformat w1) as [now w2].
  repeat split.
Qed.

(** C9: the record [think_and_act] returns carries the name of the role,
    and the concatenation, in order of arrival, of the reasoning deltas of
    the whole stream and of its answer deltas; an absent delta adds
    nothing. *)
Theorem think_and_act_concatenates a prompt context w :
  let completion :=
    fst (chat_completions_create
           (completion_request a (build_messages a prompt context)) w) in
  let result := fst (think_and_act a prompt context w) in
  agent result = role a
  /\ reasoning result =
       String.concat EmptyString
         (map (fun chunk => delta_text (delta_reasoning_content chunk))
              completion)
  /\ action result =
       String.concat EmptyString
         (map (fun chunk => delta_text (delta_content chunk)) completion).
Proof.
  unfold think_and_act, _call_model.
  destruct (chat_completions_create _ w) as [completion w1].
  cbv zeta. cbn [fst].
  destruct (datetime_now_isoformat w1) as [now w2]. cbn [fst agent reasoning action].
  rewrite fold_accumulate. cbn [fst snd]. repeat split.
Qed.

(** C10: [generate_summary] leaves [time], [scenarios_completed],
    [current_scenario], [career_knowledge] and [skills_demonstrated] --
    duplicates included -- as they were, whether it returns or raises. *)
Theorem generate_summary_leaves_state self w :
  let self' := fst (snd (generate_summary (self, w))) in
  time (simulation_state self') = time (simulation_state self)
  /\ scenarios_completed (simulation_state self') =
       scenarios_completed (simulation_state self)
  /\ current_scenario (simulation_state self') =
       current_scenario (simulation_state self)
  /\ career_knowledge self' = career_knowledge self
  /\ skills_demonstrated (simulation_state self') =
       skills_demonstrated (simulation_state self).
Proof.
  cbv zeta. rewrite generate_summary_self. repeat split.
Qed.

End Properties.

(** ** The simulator at work on the chef's script *)

(** Three decisions after the opening: counter 3, ["2:00 PM"], 12 log
    entries. *)
Example chef_three_decisions :
  let s := @session chef_runtime "Chef"
             [Decide "fix the oven"; Decide "hide"; Decide "taste"]
             chef_script in
  scenarios_completed (simulation_state (fst s)) = 3%Z
  /\ time (simulation_state (fst s)) = "2:00 PM"
  /\ List.length (agent_log (fst s)) = 12%nat.
Proof. vm_compute. repeat split. Qed.

(** The first decision is answered in JSON, the second in prose. *)
Example chef_skills_demonstrated :
  skills_demonstrated (simulation_state (fst chef_after_two)) =
    [VStr "plating"; VStr "timing"; VStr "plating"].
Proof. reflexivity. Qed.

Example chef_summary_skills :
  match fst (@generate_summary chef_runtime chef_after_two) with
  | Val summary =>
      summary_skills summary = [VStr "timing"; VStr "plating"]
      /\ summary_agent_interactions summary = 9%Z
  | Raise _ => False
  end.
Proof. vm_compute. repeat split. Qed.

(** The log after the summary still has the 9 entries of the three
    calls before it. *)
Example chef_summary_log :
  List.length (agent_log (fst (snd (@generate_summary chef_runtime chef_after_two)))) =
    9%nat.
Proof. reflexivity. Qed.

(** The request of the opening's Research turn, as the endpoint received
    it. *)
Example chef_first_user_message :
  option_map (fun r => map msg_content (tl (req_messages r)))
             (hd_error (received (snd chef_started))) =
  Some [ "Context: {" ++ quoted "career" ++ ": " ++ quoted "Chef" ++ "}"
         ++ nl ++ nl
         ++ "Task: Do we have enough information to simulate a day as a Chef? What do we need to know?" ].
Proof. reflexivity. Qed.

(** Before [start_simulation] both calls raise [KeyError]. *)
Example decision_before_start :
  fst (@process_user_decision chef_runtime "fix the oven"
         (init, chef_script)) =
    Raise (KeyError "career").
Proof. reflexivity. Qed.

Example summary_before_start :
  fst (@generate_summary chef_runtime (init, chef_script)) =
    Raise (KeyError "career").
Proof. reflexivity. Qed.

(** [set] rejects a list. *)
Example summary_of_nested_skills :
  fst (@generate_summary chef_runtime (nested_skills, chef_script)) =
    Raise TypeError.
Proof. reflexivity. Qed.

(** [extend] takes a string character by character. *)
Example extend_with_a_string :
  py_iter (VStr "ab") = Val [VStr "a"; VStr "b"].
Proof. reflexivity. Qed.

(** [True] and [1] are one element of a set. *)
Example set_of_true_and_one :
  py_set [VBool true; VInt 1; VStr "1"] = Val [VBool true; VStr "1"].
Proof. reflexivity. Qed.

Lemma skills_recorded_from_evaluator_answer_witness :
  started (fst chef_started) = true
  /\ exists eval_result next_scenario narrative s',
       @process_user_decision chef_runtime "fix the oven"
         (fst chef_started, snd chef_started) =
         (Val (action narrative), s')
       /\ agent_log (fst s') =
            (agent_log (fst chef_started)
               ++ [eval_result; next_scenario; narrative])%list
       /\ agent eval_result = role (evaluator (fst chef_started))
       /\ (@json_loads chef_runtime (action eval_result) = None ->
           skills_demonstrated (simulation_state (fst s')) =
             skills_demonstrated (simulation_state (fst chef_started)))
       /\ (forall d l,
             @json_loads chef_runtime (action eval_result) = Some (VDict d) ->
             dict_lookup d "skills_used" = Some (VList l) ->
             skills_demonstrated (simulation_state (fst s')) =
               (skills_demonstrated (simulation_state (fst chef_started))
                  ++ l)%list).
Proof.
  split; [reflexivity|].
  apply (@skills_recorded_from_evaluator_answer chef_runtime
           "fix the oven" (fst chef_started) (snd chef_started)).
  reflexivity.
Defined.

(** ** Further properties of the simulator *)

Lemma think_and_act_agent {RT : Runtime} a prompt context w :
  agent (fst (think_and_act a prompt context w)) = role a.
Proof.
  unfold think_and_act.
  destruct (_call_model _ _ _) as [resp w1].
  destruct (datetime_now_isoformat w1) as [now w2]. reflexivity.
Qed.

(** Like [turn], keeping the name of the role. *)
Ltac named_turn :=
  match goal with
  | |- context [think_and_act ?a ?p ?c ?w] =>
      let t := fresh "t" in
      let w' := fresh "w" in
      let H := fresh "Hrole" in
      pose proof (think_and_act_agent a p c w) as H;
      destruct (think_and_act a p c w) as [t w'];
      cbn [fst] in H;
      cbv beta iota zeta; fields
  end.

Section Extras.

Context {RT : Runtime}.

(** X1: [process_user_decision] on a simulator without the key ["career"] --
    a fresh one, before [start_simulation] -- raises [KeyError] at once:
    no turn is run and nothing is written. *)
Theorem decision_without_career_raises user_choice self w :
  dict_lookup (career_knowledge self) "career" = None ->
  process_user_decision user_choice (self, w) =
    (Raise (KeyError "career"), (self, w)).
Proof.
  intros H. destruct (process_user_decision_any user_choice self w) as (_ & Hn).
  now rewrite H in Hn.
Qed.


(** The three turns of the opening. *)
Lemma start_simulation_turns career self w :
  exists research_result scenario_result narrative_result s',
    start_simulation career (self, w) = (Val (action narrative_result), s')
    /\ agent_log (fst s') =
         (agent_log self
            ++ [research_result; scenario_result; narrative_result])%list
    /\ agent research_result = role (research_agent self)
    /\ agent scenario_result = role (scenario_agent self)
    /\ agent narrative_result = role (narrator self)
    /\ current_scenario (simulation_state (fst s')) = Some scenario_result
    /\ time (simulation_state (fst s')) = time (simulation_state self)
    /\ scenarios_completed (simulation_state (fst s')) =
         scenarios_completed (simulation_state self)
    /\ skills_demonstrated (simulation_state (fst s')) =
         skills_demonstrated (simulation_state self).
Proof.
  unfold start_simulation. unfold_monad.
  repeat named_turn.
  do 4 eexists. split; [reflexivity|]. fields.
  rewrite <- !app_assoc. cbn [app]. repeat split; assumption.
Qed.

(** X3: [start_simulation] returns in every state and restarts nothing: the
    three turns of Research, Scenario Designer and Narrator are appended
    to the log, the narrative is returned, [current_scenario] becomes the
    Scenario Designer's turn, and [time], [scenarios_completed] and
    [skills_demonstrated] stay as they were. *)
Theorem start_simulation_keeps_progress career self w :
  exists research_result scenario_result narrative_result s',
    start_simulation career (self, w) = (Val (action narrative_result), s')
    /\ agent_log (fst s') =
         (agent_log self
            ++ [research_result; scenario_result; narrative_result])%list
    /\ agent research_result = role (research_agent self)
    /\ agent scenario_result = role (scenario_agent self)
    /\ agent narrative_result = role (narrator self)
    /\ current_scenario (simulation_state (fst s')) = Some scenario_result
    /\ time (simulation_state (fst s')) = time (simulation_state self)
    /\ scenarios_completed (simulation_state (fst s')) =
         scenarios_completed (simulation_state self)
    /\ skills_demonstrated (simulation_state (fst s')) =
         skills_demonstrated (simulation_state self).
Proof. exact (start_simulation_turns career self w). Qed.

(** X4: [_advance_time] reads the counter and writes nothing.  The index is
    clamped from above only: a counter from 0 on gives the label of
    [min(counter, 5)], a counter from -6 to -1 the label counted from the
    end of the list, and a counter below -6 raises [IndexError]. *)
Theorem advance_time_bounds self w :
  let n := scenarios_completed (simulation_state self) in
  _advance_time (self, w) =
    (if (n <? -6)%Z then Raise IndexError
     else Val (nth (Z.to_nat (if (n <? 0)%Z then n + 6 else Z.min n 5)%Z)
                   times EmptyString),
     (self, w)).
Proof.
  cbv zeta. unfold _advance_time. unfold_monad.
  set (n := scenarios_completed (simulation_state self)).
  f_equal. unfold py_index. cbn [times List.length].
  change (Z.of_nat 6 - 1)%Z with 5%Z. change (Z.of_nat 6) with 6%Z.
  destruct (Z.ltb_spec n (-6)).
  - replace (Z.min n 5) with n by lia.
    destruct (Z.ltb_spec n 0); [|lia].
    destruct (Z.leb_spec 0 (n + 6)); [lia|]. reflexivity.
  - destruct (Z.ltb_spec n 0).
    + replace (Z.min n 5) with n by lia.
      destruct (Z.ltb_spec n 0); [|lia].
      destruct (Z.leb_spec 0 (n + 6)); [|lia].
      destruct (Z.ltb_spec (n + 6) 6); [|lia]. cbn [andb].
      assert (Hk : exists k, (k < 6)%nat /\ Z.to_nat (n + 6) = k)
        by (eexists; split; [|reflexivity]; lia).
      destruct Hk as (k & Hk & ->).
      do 6 (destruct k as [|k]; [reflexivity|]). lia.
    + destruct (Z.ltb_spec (Z.min n 5) 0); [lia|].
      destruct (Z.leb_spec 0 (Z.min n 5)); [|lia].
      destruct (Z.ltb_spec (Z.min n 5) 6); [|lia]. cbn [andb].
      assert (Hk : exists k, (k < 6)%nat /\ Z.to_nat (Z.min n 5) = k)
        by (eexists; split; [|reflexivity]; lia).
      destruct Hk as (k & Hk & ->).
      do 6 (destruct k as [|k]; [reflexivity|]). lia.
Qed.

(** The three turns of a decision. *)
Lemma process_user_decision_turns user_choice self w :
  started self = true ->
  exists eval_result next_scenario narrative s',
    process_user_decision user_choice (self, w) =
      (Val (action narrative), s')
    /\ agent_log (fst s') =
         (agent_log self ++ [eval_result; next_scenario; narrative])%list
    /\ agent eval_result = role (evaluator self)
    /\ agent next_scenario = role (scenario_agent self)
    /\ agent narrative = role (narrator self)
    /\ current_scenario (simulation_state (fst s')) = Some next_scenario.
Proof.
  unfold started. intros Hs.
  destruct (dict_lookup (career_knowledge self) "career") as [career|] eqn:Hc;
    [|discriminate].
  apply Z.leb_le in Hs.
  unfold process_user_decision, _advance_time, dict_getitem.
  unfold_monad. rewrite Hc. cbv beta iota zeta; fields.
  named_turn.
  destruct (skills_used_of (action t)) as [skills|err];
    unfold_monad; fields;
    (rewrite py_index_times by lia);
    cbv beta iota zeta; fields; rewrite Hc;
    cbv beta iota zeta; fields;
    repeat named_turn;
    (do 4 eexists; split; [reflexivity|]); fields;
    rewrite <- !app_assoc; cbn [app]; repeat split; assumption.
Qed.

(** In any state, whether it returns or raises, a decision only adds at
    the end of the log and of the skills. *)
Lemma process_user_decision_extends user_choice self w :
  let self' := fst (snd (process_user_decision user_choice (self, w))) in
  (exists added, agent_log self' = (agent_log self ++ added)%list)
  /\ (exists added,
        skills_demonstrated (simulation_state self') =
          (skills_demonstrated (simulation_state self) ++ added)%list).
Proof.
  unfold process_user_decision, _advance_time, dict_getitem.
  unfold_monad.
  destruct (dict_lookup (career_knowledge self) "career") as [career|] eqn:Hc;
    cbv beta iota zeta; fields;
    [|split; exists []; now rewrite app_nil_r].
  turn.
  destruct (skills_used_of (action t)) as [skills|err];
    unfold_monad; fields;
    (destruct (py_index times _) as [t'|err'];
     cbv beta iota zeta; fields;
     [|split; eexists; try reflexivity; now rewrite app_nil_r]);
    rewrite Hc; cbv beta iota zeta; fields;
    repeat turn; rewrite <- !app_assoc;
    split; eexists; try reflexivity; now rewrite app_nil_r.
Qed.

Lemma run_op_extends o s :
  (exists added,
     agent_log (fst (run_op o s)) = (agent_log (fst s) ++ added)%list)
  /\ (exists added,
        skills_demonstrated (simulation_state (fst (run_op o s))) =
          (skills_demonstrated (simulation_state (fst s)) ++ added)%list).
Proof.
  destruct s as [self w]. destruct o as [career|c|]; cbn [run_op fst].
  - destruct (start_simulation_run career self w)
      as (r1 & r2 & r3 & w' & ->). fields.
    split; eexists; [reflexivity | now rewrite app_nil_r].
  - apply process_user_decision_extends.
  - rewrite generate_summary_self. split; exists []; now rewrite app_nil_r.
Qed.

Lemma run_ops_extends ops : forall s,
  (exists added,
     agent_log (fst (run_ops ops s)) = (agent_log (fst s) ++ added)%list)
  /\ (exists added,
        skills_demonstrated (simulation_state (fst (run_ops ops s))) =
          (skills_demonstrated (simulation_state (fst s)) ++ added)%list).
Proof.
  unfold run_ops.
  induction ops as [|o ops IH]; intros s; cbn [fold_left].
  - split; exists []; now rewrite app_nil_r.
  - destruct (IH (run_op o s)) as ((l1 & H1) & (k1 & K1)).
    destruct (run_op_extends o s) as ((l0 & H0) & (k0 & K0)).
    rewrite H1, H0, K1, K0, <- !app_assoc. split; eexists; reflexivity.
Qed.

(** X5: No sequence of operations, from any state and whatever raises on the
    way, removes or rewrites an entry of the log or of
    [skills_demonstrated]: both only grow at the end. *)
Theorem log_and_skills_append_only ops s :
  (exists added,
     agent_log (fst (run_ops ops s)) = (agent_log (fst s) ++ added)%list)
  /\ (exists added,
        skills_demonstrated (simulation_state (fst (run_ops ops s))) =
          (skills_demonstrated (simulation_state (fst s)) ++ added)%list).
Proof. exact (run_ops_extends ops s). Qed.

Lemma log_roles_run_op o s :
  started (fst s) = true ->
  same_agents (fst s) init ->
  map agent (agent_log (fst (run_op o s))) =
    (map agent (agent_log (fst s)) ++ logged_roles o)%list.
Proof.
  destruct s as [self w]. cbn [fst]. intros Hs (A & B & C & D).
  destruct o as [career|c|]; cbn [run_op logged_roles].
  - destruct (start_simulation_turns career self w)
      as (r1 & r2 & r3 & s' & -> & Hlog & H1 & H2 & H3 & _).
    cbn [snd]. rewrite Hlog, map_app. cbn [map].
    now rewrite H1, H2, H3, A, B, D.
  - destruct (process_user_decision_turns c self w Hs)
      as (e & n & r & s' & -> & Hlog & H1 & H2 & H3 & _).
    cbn [snd]. rewrite Hlog, map_app. cbn [map].
    now rewrite H1, H2, H3, B, C, D.
  - rewrite generate_summary_self. now rewrite app_nil_r.
Qed.

Lemma same_agents_trans a b c :
  same_agents a b -> same_agents b c -> same_agents a c.
Proof.
  intros (A & B & C & D) (A' & B' & C' & D'). repeat split; congruence.
Qed.

Lemma same_agents_start career w :
  same_agents (fst (snd (start_simulation career (init, w)))) init.
Proof.
  destruct (start_simulation_run career init w)
    as (r1 & r2 & r3 & w' & ->). repeat split.
Qed.

Lemma log_roles_run_ops ops : forall s,
  started (fst s) = true ->
  same_agents (fst s) init ->
  map agent (agent_log (fst (run_ops ops s))) =
    (map agent (agent_log (fst s)) ++ List.concat (map logged_roles ops))%list.
Proof.
  unfold run_ops.
  induction ops as [|o ops IH]; intros s Hs Ha; cbn [fold_left map List.concat].
  - now rewrite app_nil_r.
  - rewrite IH.
    + now rewrite (log_roles_run_op o s Hs Ha), <- app_assoc.
    + now apply started_run_op.
    + eapply same_agents_trans; [apply same_agents_run_op, Hs | exact Ha].
Qed.

(** X6: The log of a session names the roles in the order of the calls:
    Research, Scenario Designer, Narrator for each [start_simulation],
    Evaluator, Scenario Designer, Narrator for each
    [process_user_decision], and nothing for [generate_summary]. *)
Theorem log_roles_of_session career ops w :
  map agent (agent_log (fst (session career ops w))) =
    List.concat (map logged_roles (Start career :: ops)).
Proof.
  unfold session. rewrite log_roles_run_ops.
  - cbn [map List.concat]. f_equal.
    destruct (start_simulation_turns career init w)
      as (r1 & r2 & r3 & s' & -> & Hlog & H1 & H2 & H3 & _).
    cbn [snd]. rewrite Hlog. cbn. now rewrite H1, H2, H3.
  - apply started_start_simulation. cbn. lia.
  - apply same_agents_start.
Qed.

Lemma scenario_in_log_run_op o s :
  started (fst s) = true ->
  same_agents (fst s) init ->
  scenario_in_log (fst s) -> scenario_in_log (fst (run_op o s)).
Proof.
  destruct s as [self w]. cbn [fst]. intros Hs (_ & B & _) HJ.
  destruct o as [career|c|]; cbn [run_op].
  - destruct (start_simulation_turns career self w)
      as (r1 & r2 & r3 & s' & -> & Hlog & _ & H2 & _ & Hc & _).
    cbn [snd]. exists (agent_log self ++ [r1])%list, r2, r3.
    rewrite Hlog, <- app_assoc. repeat split; [exact Hc|].
    now rewrite H2, B.
  - destruct (process_user_decision_turns c self w Hs)
      as (e & n & r & s' & -> & Hlog & _ & H2 & _ & Hc).
    cbn [snd]. exists (agent_log self ++ [e])%list, n, r.
    rewrite Hlog, <- app_assoc. repeat split; [exact Hc|].
    now rewrite H2, B.
  - now rewrite generate_summary_self.
Qed.

(** X7: In a session [current_scenario] always holds the latest Scenario
    Designer turn, which is the entry before the last one of the log: a
    summary or a restart in between does not lose it. *)
Theorem current_scenario_is_latest_design career ops w :
  exists earlier scenario narrative,
    agent_log (fst (session career ops w)) =
      (earlier ++ [scenario; narrative])%list
    /\ current_scenario (simulation_state (fst (session career ops w))) =
         Some scenario
    /\ agent scenario = "Scenario Designer".
Proof.
  change (scenario_in_log (fst (session career ops w))).
  unfold session, run_ops.
  assert (H0 : scenario_in_log
                 (fst (snd (start_simulation career (init, w))))).
  { destruct (start_simulation_turns career init w)
      as (r1 & r2 & r3 & s' & -> & Hlog & _ & H2 & _ & Hc & _).
    cbn [snd]. exists [r1], r2, r3. rewrite Hlog. repeat split; assumption. }
  pose proof (same_agents_start career w) as Ha.
  assert (Hs : started (fst (snd (start_simulation career (init, w)))) = true)
    by (apply started_start_simulation; cbn; lia).
  revert H0 Ha Hs. generalize (snd (start_simulation career (init, w))).
  induction ops as [|o ops IH]; intros s H0 Ha Hs; cbn [fold_left];
    [exact H0|].
  apply IH.
  - now apply scenario_in_log_run_op.
  - eapply same_agents_trans; [apply same_agents_run_op, Hs | exact Ha].
  - now apply started_run_op.
Qed.

Lemma counter_run_op o s :
  started (fst s) = true ->
  scenarios_completed (simulation_state (fst (run_op o s))) =
    (scenarios_completed (simulation_state (fst s))
       + (if is_decide o then 1 else 0))%Z.
Proof.
  destruct s as [self w]. cbn [fst]. intros Hs.
  destruct o as [career|c|]; cbn [run_op is_decide].
  - destruct (start_simulation_run career self w)
      as (r1 & r2 & r3 & w' & ->). fields. lia.
  - destruct (process_user_decision_run c self w Hs)
      as (e & n & r & w' & -> & _). fields. reflexivity.
  - rewrite generate_summary_self. lia.
Qed.

Lemma progress_run_ops ops : forall s,
  started (fst s) = true ->
  time_in_step (fst s) ->
  scenarios_completed (simulation_state (fst (run_ops ops s))) =
    (scenarios_completed (simulation_state (fst s))
       + Z.of_nat (List.length (filter is_decide ops)))%Z
  /\ time_in_step (fst (run_ops ops s)).
Proof.
  unfold run_ops.
  induction ops as [|o ops IH]; intros s Hs Ht; cbn [fold_left filter].
  - cbn [List.length]. split; [lia | exact Ht].
  - destruct (IH (run_op o s)) as (Hc & Ht');
      [now apply started_run_op | now apply time_in_step_run_op |].
    split; [|exact Ht'].
    rewrite Hc, (counter_run_op o s Hs).
    destruct (is_decide o); cbn [List.length]; lia.
Qed.

(** X8: In a session [scenarios_completed] is the number of decisions made so
    far and [time] is the label of index [min(scenarios_completed, 5)],
    whatever summaries and restarts come in between. *)
Theorem session_progress career ops w :
  let decisions := List.length (filter is_decide ops) in
  scenarios_completed (simulation_state (fst (session career ops w))) =
    Z.of_nat decisions
  /\ nth_error
       ["9:00 AM"; "10:30 AM"; "12:00 PM"; "2:00 PM"; "4:00 PM"; "5:30 PM"]
       (Nat.min decisions 5) =
     Some (time (simulation_state (fst (session career ops w)))).
Proof.
  cbv zeta. unfold session.
  destruct (progress_run_ops ops (snd (start_simulation career (init, w))))
    as (Hc & Ht).
  - apply started_start_simulation. cbn. lia.
  - destruct (start_simulation_run career init w)
      as (r1 & r2 & r3 & w' & ->). reflexivity.
  - assert (H0 : scenarios_completed (simulation_state
                   (fst (snd (start_simulation career (init, w))))) = 0%Z).
    { destruct (start_simulation_run career init w)
        as (r1 & r2 & r3 & w' & ->). reflexivity. }
    rewrite H0 in Hc. split; [rewrite Hc; lia|].
    unfold time_in_step in Ht. rewrite Hc in Ht. rewrite <- Ht.
    unfold times. f_equal. lia.
Qed.

(** X9: Once [skills_demonstrated] holds an unhashable value -- a list or a
    dict from an Evaluator answer -- every later [generate_summary] of the
    started simulator raises [TypeError]: no operation removes it. *)
Theorem unhashable_skill_breaks_every_summary self w ops :
  started self = true ->
  forallb hashable (skills_demonstrated (simulation_state self)) = false ->
  fst (generate_summary (run_ops ops (self, w))) = Raise TypeError.
Proof.
  intros Hs Hh.
  pose proof (started_run_ops ops (self, w) Hs) as Hs'.
  destruct (run_ops_extends ops (self, w)) as (_ & (added & Hk)).
  destruct (run_ops ops (self, w)) as [self' w']. cbn [fst] in *.
  destruct (generate_summary_run self' w') as (e & n & w2 & -> & _).
  cbn [fst]. unfold started in Hs'. unfold dict_getitem.
  destruct (dict_lookup (career_knowledge self') "career"); [|discriminate].
  cbn [res_bind]. unfold py_set.
  pose proof (set_insert_all_raise
                (skills_demonstrated (simulation_state self')) []) as Hr.
  destruct (set_insert_all [] _) as [r|err]; cbn [res_bind].
  - rewrite Hk, forallb_app, Hh in Hr. discriminate.
  - now destruct Hr as (-> & _).
Qed.

(** X10: What a decision records when the Evaluator's answer is valid JSON of
    another shape: nothing for an answer that is not an object, for an
    object without [skills_used], and for a [skills_used] that is null, a
    boolean or a number; every character of a [skills_used] string as a
    skill of its own; the keys of a [skills_used] object. *)
Theorem skills_used_of_other_shapes user_choice self w :
  started self = true ->
  exists eval_result next_scenario narrative s',
    process_user_decision user_choice (self, w) =
      (Val (action narrative), s')
    /\ agent_log (fst s') =
         (agent_log self ++ [eval_result; next_scenario; narrative])%list
    /\ (forall v,
          json_loads (action eval_result) = Some v ->
          (forall d, v <> VDict d) ->
          skills_demonstrated (simulation_state (fst s')) =
            skills_demonstrated (simulation_state self))
    /\ (forall d,
          json_loads (action eval_result) = Some (VDict d) ->
          dict_lookup d "skills_used" = None ->
          skills_demonstrated (simulation_state (fst s')) =
            skills_demonstrated (simulation_state self))
    /\ (forall d x,
          json_loads (action eval_result) = Some (VDict d) ->
          dict_lookup d "skills_used" = Some x ->
          x = VNone \/ (exists b, x = VBool b) \/ (exists n, x = VInt n) ->
          skills_demonstrated (simulation_state (fst s')) =
            skills_demonstrated (simulation_state self))
    /\ (forall d text,
          json_loads (action eval_result) = Some (VDict d) ->
          dict_lookup d "skills_used" = Some (VStr text) ->
          skills_demonstrated (simulation_state (fst s')) =
            (skills_demonstrated (simulation_state self)
               ++ map (fun c => VStr (String c EmptyString))
                      (list_ascii_of_string text))%list)
    /\ (forall d d',
          json_loads (action eval_result) = Some (VDict d) ->
          dict_lookup d "skills_used" = Some (VDict d') ->
          skills_demonstrated (simulation_state (fst s')) =
            (skills_demonstrated (simulation_state self)
               ++ map (fun kv => VStr (fst kv)) d')%list).
Proof.
  intros Hs.
  destruct (process_user_decision_run user_choice self w Hs)
    as (e & n & r & w' & -> & _).
  exists e, n, r. eexists. split; [reflexivity|]. fields.
  split; [reflexivity|].
  unfold recorded_skills, skills_used_of.
  split; [|split; [|split; [|split]]].
  - intros v -> Hv. destruct v; cbn [py_get res_bind];
      try now rewrite app_nil_r.
    now destruct (Hv d).
  - intros d -> Hd. cbn [py_get res_bind]. rewrite Hd.
    cbn [py_iter]. now rewrite app_nil_r.
  - intros d x -> Hd Hx. cbn [py_get res_bind]. rewrite Hd.
    destruct Hx as [->|[(b & ->)|(k & ->)]]; cbn [py_iter];
      now rewrite app_nil_r.
  - intros d text -> Hd. cbn [py_get res_bind]. now rewrite Hd.
  - intros d d' -> Hd. cbn [py_get res_bind]. now rewrite Hd.
Qed.

Lemma set_insert_all_length xs : forall seen r,
  set_insert_all seen xs = Val r ->
  (List.length r <= List.length seen + List.length xs)%nat.
Proof.
  induction xs as [|x xs IH]; intros seen r; cbn [set_insert_all List.length].
  - intros [= <-]. lia.
  - destruct (hashable x); [|discriminate].
    destruct (existsb (py_eq x) seen); intros Hr; apply IH in Hr.
    + lia.
    + rewrite length_app in Hr. cbn [List.length] in Hr. lia.
Qed.

Lemma set_insert_all_distinct xs : forall seen,
  NoDup (seen ++ xs) ->
  forallb is_str (seen ++ xs) = true ->
  set_insert_all seen xs = Val (seen ++ xs)%list.
Proof.
  induction xs as [|x xs IH]; intros seen Hn Hs; cbn [set_insert_all].
  - now rewrite app_nil_r.
  - assert (Hx : is_str x = true).
    { rewrite forallb_app in Hs. apply andb_prop in Hs.
      destruct Hs as (_ & Hs). cbn [forallb] in Hs.
      now apply andb_prop in Hs. }
    destruct x as [| | |text| |]; try discriminate. cbn [hashable].
    assert (He : existsb (py_eq (VStr text)) seen = false).
    { destruct (existsb (py_eq (VStr text)) seen) eqn:E; [|reflexivity].
      apply existsb_exists in E. destruct E as (y & Hy & Hyx).
      apply py_eq_str in Hyx. subst y.
      apply NoDup_remove_2 in Hn. destruct Hn.
      apply in_or_app. now left. }
    rewrite He.
    replace (seen ++ VStr text :: xs)%list
      with ((seen ++ [VStr text]) ++ xs)%list
      by (now rewrite <- app_assoc).
    apply IH; rewrite <- app_assoc; assumption.
Qed.

(** X11: A summary never lists more skills than were recorded, and when the
    recorded skills are pairwise different strings it lists each of them
    once: its [skills] is a permutation of [skills_demonstrated]. *)
Theorem summary_skills_size self w summary :
  fst (generate_summary (self, w)) = Val summary ->
  (List.length (summary_skills summary) <=
   List.length (skills_demonstrated (simulation_state self)))%nat
  /\ (NoDup (skills_demonstrated (simulation_state self)) ->
      forallb is_str (skills_demonstrated (simulation_state self)) = true ->
      Permutation (summary_skills summary)
                  (skills_demonstrated (simulation_state self))).
Proof.
  destruct (generate_summary_run self w) as (e & n & w' & -> & _).
  cbn [fst]. destruct (dict_getitem _ _) as [career|]; cbn [res_bind];
    [|discriminate].
  unfold py_set.
  destruct (set_insert_all [] _) as [skills|err] eqn:Hset; cbn [res_bind];
    [|discriminate].
  intros [= <-]. cbn [summary_skills].
  pose proof (set_iteration_perm skills) as Hp. split.
  - rewrite (Permutation_length Hp).
    apply set_insert_all_length in Hset. cbn [List.length] in Hset. lia.
  - intros Hn Hs.
    rewrite (set_insert_all_distinct _ [] Hn Hs) in Hset.
    injection Hset as <-. exact Hp.
Qed.

End Extras.

(** ** The command-line driver *)

Section MainProperties.

Context {RT : Runtime}.

Lemma decision_loop_done stdin s :
  (5 <= scenarios_completed (simulation_state (fst s)))%Z ->
  decision_loop stdin s = (Finished tt, s).
Proof.
  intros H. destruct stdin; cbn [decision_loop];
    destruct (Z.ltb_spec (scenarios_completed (simulation_state (fst s))) 5);
    (lia || reflexivity).
Qed.

Lemma is_quit_empty : is_quit EmptyString = false.
Proof. reflexivity. Qed.

Lemma is_str_hashable l :
  forallb is_str l = true -> forallb hashable l = true.
Proof.
  induction l as [|x l IH]; cbn [forallb]; [reflexivity|].
  intros H. apply andb_prop in H. destruct H as (Hx & Hl).
  rewrite (IH Hl). now destruct x.
Qed.

Lemma str_items_raise l :
  match str_items l with
  | Val _ => True
  | Raise e => e = TypeError /\ forallb is_str l = false
  end.
Proof.
  induction l as [|x l IH]; cbn [str_items forallb]; [exact I|].
  destruct x; cbn [is_str andb]; try (split; reflexivity).
  destruct (str_items l); cbn [res_bind]; [exact I | exact IH].
Qed.

Lemma forallb_incl {A} (f : A -> bool) (l k : list A) :
  (forall x, In x l -> In x k) ->
  forallb f k = true -> forallb f l = true.
Proof.
  intros H Hk. apply forallb_forall. intros x Hx.
  rewrite forallb_forall in Hk. apply Hk, H, Hx.
Qed.

(** The loop on a started simulator. *)
Lemma decision_loop_run stdin : forall self w,
  started self = true ->
  exists o self' w',
    decision_loop stdin (self, w) = (o, (self', w'))
    /\ (forall e, o <> Crashed e)
    /\ started self' = true
    /\ career_knowledge self' = career_knowledge self
    /\ (scenarios_completed (simulation_state self) <=
        scenarios_completed (simulation_state self'))%Z
    /\ (scenarios_completed (simulation_state self') <=
        Z.max 5 (scenarios_completed (simulation_state self)))%Z
    /\ (scenarios_completed (simulation_state self')
          - scenarios_completed (simulation_state self) <=
        Z.of_nat (List.length (filter is_decision stdin)))%Z
    /\ Z.of_nat (List.length (agent_log self')) =
         (Z.of_nat (List.length (agent_log self))
          + 3 * (scenarios_completed (simulation_state self')
                 - scenarios_completed (simulation_state self)))%Z
    /\ ((forall answer, forallb is_str (recorded_skills answer) = true) ->
        forallb is_str (skills_demonstrated (simulation_state self)) = true ->
        forallb is_str (skills_demonstrated (simulation_state self')) = true).
Proof.
  induction stdin as [|line stdin IH]; intros self w Hs.
  - exists (if (scenarios_completed (simulation_state self) <? 5)%Z
            then EOFError else Finished tt), self, w.
    cbn [decision_loop fst filter List.length].
    split; [now destruct (_ <? _)%Z|].
    split; [intros e; now destruct (_ <? _)%Z|].
    repeat split; auto; lia.
  - cbn [decision_loop fst filter].
    destruct (Z.ltb_spec (scenarios_completed (simulation_state self)) 5)
      as [Hlt|Hge].
    2:{ exists (Finished tt), self, w.
        split; [reflexivity|]. split; [discriminate|].
        repeat split; auto; lia. }
    destruct (is_quit (str_strip line)) eqn:Hq.
    { exists (Finished tt), self, w.
      split; [reflexivity|]. split; [discriminate|].
      repeat split; auto; lia. }
    destruct (String.eqb (str_strip line) EmptyString) eqn:Hb.
    { assert (Hd : is_decision line = false)
        by (unfold is_decision; now rewrite Hq, Hb).
      rewrite Hd.
      destruct (IH self w Hs)
        as (o & self' & w' & Heq & Hnc & Hst & Hck & H1 & H2 & H3 & H4 & H5).
      exists o, self', w'. repeat split; auto. }
    assert (Hd : is_decision line = true)
      by (unfold is_decision; now rewrite Hq, Hb).
    rewrite Hd.
    destruct (process_user_decision_run (str_strip line) self w Hs)
      as (e & n & r & w1 & Hrun & _).
    pose proof (started_run_op (Decide (str_strip line)) (self, w) Hs) as Hs1.
    cbn [run_op fst] in Hs1. rewrite Hrun in Hs1 |- *. cbn [snd fst] in Hs1.
    match type of Hs1 with started ?x = true => set (self1 := x) in * end.
    destruct (IH self1 w1 Hs1)
      as (o & self' & w' & Heq & Hnc & Hst & Hck & H1 & H2 & H3 & H4 & H5).
    exists o, self', w'.
    assert (Hsc : scenarios_completed (simulation_state self1) =
                  (scenarios_completed (simulation_state self) + 1)%Z)
      by reflexivity.
    assert (Hlog : List.length (agent_log self1) =
                   (List.length (agent_log self) + 3)%nat)
      by (subst self1; fields; now rewrite length_app).
    split; [exact Heq|]. split; [exact Hnc|]. split; [exact Hst|].
    split; [rewrite Hck; reflexivity|].
    cbn [List.length].
    split; [lia|]. split; [lia|]. split; [lia|]. split; [lia|].
    intros Hall Hstr. apply H5; [exact Hall|].
    subst self1. fields. rewrite forallb_app, Hstr, Hall. reflexivity.
Qed.

(** The report of a started simulator. *)
Lemma final_report_run self w :
  started self = true ->
  match final_report (self, w) with
  | (Finished r, s') =>
      dict_lookup (career_knowledge self) "career" =
        Some (summary_career (report_summary r))
      /\ summary_scenarios_completed (report_summary r) =
           scenarios_completed (simulation_state self)
      /\ summary_agent_interactions (report_summary r) =
           Z.of_nat (List.length (agent_log self))
      /\ report_log_length r = Z.of_nat (List.length (agent_log self))
      /\ fst s' = self
  | (Crashed e, s') =>
      e = TypeError
      /\ forallb is_str (skills_demonstrated (simulation_state self)) = false
      /\ fst s' = self
  | (EOFError, _) => False
  end.
Proof.
  intros Hs. unfold final_report.
  destruct (generate_summary_run self w) as (e & n & w' & -> & _).
  unfold started in Hs. unfold dict_getitem.
  destruct (dict_lookup (career_knowledge self) "career") as [career|];
    [|discriminate].
  cbn [res_bind]. unfold py_set.
  pose proof (set_insert_all_raise
                (skills_demonstrated (simulation_state self)) []) as Hr.
  destruct (set_insert_all [] (skills_demonstrated (simulation_state self)))
    as [skills|err] eqn:Hset; cbn [res_bind].
  2:{ destruct Hr as (-> & Hr). split; [reflexivity|].
      split; [|reflexivity].
      destruct (forallb is_str _) eqn:E; [|reflexivity].
      apply is_str_hashable in E. congruence. }
  cbn [summary_skills]. unfold py_join.
  pose proof (str_items_raise (firstn 5 (set_iteration skills))) as Hj.
  destruct (str_items (firstn 5 (set_iteration skills))) as [ss|err];
    cbn [res_bind].
  - unfold get_agent_log, bind, get_self, ret. cbn [fst snd].
    cbn [report_summary report_log_length summary_career
         summary_scenarios_completed summary_agent_interactions].
    repeat split.
  - destruct Hj as (-> & Hj). split; [reflexivity|].
    split; [|reflexivity].
    destruct (forallb is_str (skills_demonstrated (simulation_state self)))
      eqn:E; [|reflexivity].
    rewrite (@forallb_incl _ is_str (firstn 5 (set_iteration skills))
               (skills_demonstrated (simulation_state self))) in Hj;
      [discriminate | | exact E].
    intros x Hx.
    assert (Hx' : In x (set_iteration skills))
      by (rewrite <- (firstn_skipn 5); apply in_or_app; now left).
    clear Hx. rename Hx' into Hx.
    apply (Permutation_in _ (set_iteration_perm skills)) in Hx.
    destruct (set_insert_all_val _ set_like_nil Hset) as (_ & Hin & _).
    destruct (Hin x Hx) as [[]|H]. exact H.
Qed.

(** [main] from the start of the loop. *)
Lemma main_run career lines w :
  exists opening self0 w0,
    start_simulation career (init, w) = (Val opening, (self0, w0))
    /\ started self0 = true
    /\ career_knowledge self0 = career_dict career
    /\ scenarios_completed (simulation_state self0) = 0%Z
    /\ skills_demonstrated (simulation_state self0) = []
    /\ List.length (agent_log self0) = 3%nat
    /\ main (career :: lines) w =
         match decision_loop lines (self0, w0) with
         | (Finished _, s1) => final_report s1
         | (Crashed e, s1) => (Crashed e, s1)
         | (EOFError, s1) => (EOFError, s1)
         end.
Proof.
  pose proof (started_start_simulation career init w) as Hs.
  cbn [main].
  destruct (start_simulation_run career init w)
    as (r1 & r2 & r3 & w0 & Hrun).
  rewrite Hrun in Hs |- *. cbn [snd fst] in Hs.
  do 3 eexists. split; [reflexivity|].
  split; [apply Hs; cbn; lia|]. repeat split.
Qed.

(** X12: When [main] returns, the report is for the career of the first line,
    unstripped; at most five decisions were made and no more than there
    are decision lines in the input; [agent_interactions] and the printed
    log length are both three for the opening plus three per decision. *)
Theorem main_report stdin w r s :
  main stdin w = (Finished r, s) ->
  exists career lines,
    stdin = career :: lines
    /\ summary_career (report_summary r) = VStr career
    /\ (0 <= summary_scenarios_completed (report_summary r) <= 5)%Z
    /\ (summary_scenarios_completed (report_summary r) <=
        Z.of_nat (List.length (filter is_decision lines)))%Z
    /\ summary_agent_interactions (report_summary r) =
         (3 + 3 * summary_scenarios_completed (report_summary r))%Z
    /\ report_log_length r = summary_agent_interactions (report_summary r).
Proof.
  destruct stdin as [|career lines]; [discriminate|].
  destruct (main_run career lines w)
    as (opening & self0 & w0 & _ & Hs & Hck & Hsc & _ & Hlog & ->).
  destruct (decision_loop_run lines self0 w0 Hs)
    as (o & self' & w' & -> & _ & Hst & Hck' & H1 & H2 & H3 & H4 & _).
  destruct o as [[]|e|]; [|discriminate|discriminate].
  pose proof (final_report_run self' w' Hst) as Hf.
  destruct (final_report (self', w')) as [[r'|e|] s']; [|discriminate|tauto].
  intros [= <- <-]. destruct Hf as (Hc & Hn & Hi & Hl & _).
  exists career, lines. split; [reflexivity|].
  rewrite Hck', Hck in Hc. cbn [career_dict dict_lookup] in Hc.
  rewrite String.eqb_refl in Hc. injection Hc as Hc.
  rewrite Hn, Hi, Hl, Hsc in *. rewrite Hlog in H4.
  repeat split; try lia. now rewrite <- Hc.
Qed.


Lemma decision_loop_skills_from_log stdin : forall self w,
  started self = true ->
  role (evaluator self) = "Evaluator" ->
  skills_from_log self ->
  skills_from_log (fst (snd (decision_loop stdin (self, w)))).
Proof.
  induction stdin as [|line stdin IH]; intros self w Hs He Hinv;
    cbn [decision_loop fst].
  - now destruct (_ <? 5)%Z.
  - destruct (_ <? 5)%Z; [|exact Hinv].
    destruct (is_quit (str_strip line)); [exact Hinv|].
    destruct (String.eqb (str_strip line) EmptyString); [now apply IH|].
    destruct (process_user_decision_run (str_strip line) self w Hs)
      as (e & n & r & w1 & Hrun & Hag).
    pose proof (started_run_op (Decide (str_strip line)) (self, w) Hs) as Hs1.
    cbn [run_op fst] in Hs1. rewrite Hrun in Hs1 |- *. cbn [snd fst] in Hs1.
    apply IH; [exact Hs1 | exact He |].
    intros v Hv. revert Hv. fields. intros Hv.
    apply in_app_or in Hv. destruct Hv as [Hv|Hv].
    + destruct (Hinv v Hv) as (t & Ht & Hta & Htv).
      exists t. split; [apply in_or_app; now left | now split].
    + exists e. split; [apply in_or_app; right; now left|].
      split; [now rewrite Hag, He | exact Hv].
Qed.

Lemma forallb_false_exists {A} (f : A -> bool) (l : list A) :
  forallb f l = false -> exists x, In x l /\ f x = false.
Proof.
  induction l as [|x l IH]; cbn [forallb]; [discriminate|].
  destruct (f x) eqn:E; cbn [andb].
  - intros H. destruct (IH H) as (y & Hy & Hfy).
    exists y. split; [now right | exact Hfy].
  - intros _. exists x. split; [now left | exact E].
Qed.

(** X14: When the answer of every Evaluator turn in the log of the run
    yields strings only -- the format its prompt asks for, or no JSON at
    all -- no exception escapes [main]. *)
Theorem main_does_not_crash_on_string_skills stdin w :
  (forall t,
     In t (agent_log (fst (snd (main stdin w)))) ->
     agent t = "Evaluator" ->
     forallb is_str (recorded_skills (action t)) = true) ->
  forall e, fst (main stdin w) <> Crashed e.
Proof.
  destruct stdin as [|career lines]; [discriminate|].
  destruct (main_run career lines w)
    as (opening & self0 & w0 & Hstart & Hs & _ & _ & Hsk & _ & ->).
  pose proof (@decision_loop_skills_from_log lines self0 w0 Hs) as Hinv.
  destruct (decision_loop_run lines self0 w0 Hs)
    as (o & self' & w' & Hloop & Hnc & Hst & _).
  rewrite Hloop in Hinv |- *. cbn [fst snd] in Hinv.
  destruct o as [[]|e'|]; [|now destruct (Hnc e')|discriminate].
  pose proof (final_report_run self' w' Hst) as Hf.
  destruct (final_report (self', w')) as [[r'|e'|] s'];
    [discriminate| |tauto].
  cbn [fst snd]. destruct Hf as (_ & Hf & ->).
  intros Hall e _.
  destruct (forallb_false_exists _ _ Hf) as (v & Hv & Hstr).
  assert (Hrole : role (evaluator self0) = "Evaluator").
  { pose proof (same_agents_start career w) as (_ & _ & Hev & _).
    rewrite Hstart in Hev. cbn [snd fst] in Hev. now rewrite Hev. }
  assert (H0 : skills_from_log self0).
  { intros u Hu. rewrite Hsk in Hu. destruct Hu. }
  destruct (Hinv Hrole H0 v Hv) as (t & Ht & Hta & Htv).
  specialize (Hall t Ht Hta). rewrite forallb_forall in Hall.
  rewrite (Hall v Htv) in Hstr. discriminate.
Qed.

Lemma decision_loop_blank pre blank post : forall s,
  is_blank blank = true ->
  decision_loop (pre ++ blank :: post) s = decision_loop (pre ++ post) s.
Proof.
  intros s Hb. revert s.
  induction pre as [|line pre IH]; intros s.
  - cbn [app].
    destruct (Z.ltb_spec (scenarios_completed (simulation_state (fst s))) 5)
      as [Hlt|Hge].
    + cbn [decision_loop]. apply Z.ltb_lt in Hlt. rewrite Hlt.
      unfold is_blank in Hb. apply String.eqb_eq in Hb. rewrite Hb.
      rewrite is_quit_empty. cbn [String.eqb].
      reflexivity.
    + now rewrite !decision_loop_done.
  - cbn [app decision_loop].
    destruct (_ <? 5)%Z; [|reflexivity].
    destruct (is_quit (str_strip line)); [reflexivity|].
    destruct (String.eqb (str_strip line) EmptyString); [apply IH|].
    destruct (process_user_decision (str_strip line) s) as [[x|e] s1];
      [apply IH | reflexivity].
Qed.

(** X15: A line that is empty or only whitespace, anywhere after the career
    line, is skipped: the run, the state and the world are those of the
    input without the line. *)
Theorem main_skips_blank_lines career pre blank post w :
  is_blank blank = true ->
  main (career :: pre ++ blank :: post) w = main (career :: pre ++ post) w.
Proof.
  intros Hb. cbn [main].
  destruct (start_simulation career (init, w)) as [[x|e] s]; [|reflexivity].
  now rewrite decision_loop_blank.
Qed.

Lemma decision_loop_more stdin more : forall s,
  fst (decision_loop stdin s) <> EOFError ->
  decision_loop (stdin ++ more) s = decision_loop stdin s.
Proof.
  induction stdin as [|line stdin IH]; intros s.
  - cbn [app].
    destruct (Z.ltb_spec (scenarios_completed (simulation_state (fst s))) 5)
      as [Hlt|Hge].
    + cbn [decision_loop]. apply Z.ltb_lt in Hlt. rewrite Hlt.
      intros H. now destruct H.
    + intros _. now rewrite !decision_loop_done.
  - cbn [app decision_loop].
    destruct (_ <? 5)%Z; [|reflexivity].
    destruct (is_quit (str_strip line)); [reflexivity|].
    destruct (String.eqb (str_strip line) EmptyString); [apply IH|].
    destruct (process_user_decision (str_strip line) s) as [[x|e] s1];
      [apply IH | reflexivity].
Qed.

(** X16: A run that does not end at the end of the input does not depend on
    what follows the lines it was given: after a quit word or the fifth
    decision nothing more is read. *)
Theorem main_reads_no_further stdin more w :
  fst (main stdin w) <> EOFError ->
  main (stdin ++ more) w = main stdin w.
Proof.
  destruct stdin as [|career lines]; [intros H; now destruct H|].
  cbn [app main].
  destruct (start_simulation career (init, w)) as [[x|e] s]; [|reflexivity].
  intros H. rewrite decision_loop_more; [reflexivity|].
  destruct (decision_loop lines s) as [[[]|e|] s1]; cbn [fst] in *;
    [discriminate | discriminate | now destruct H].
Qed.

(** X17: A quit word -- in any letter case, with whitespace around -- as the
    first line after the career ends the run before any decision: the
    report has no scenario, no skill and the three interactions of the
    opening. *)
Theorem main_quit_at_once career line more w :
  is_quit (str_strip line) = true ->
  exists r s,
    main (career :: line :: more) w = (Finished r, s)
    /\ summary_scenarios_completed (report_summary r) = 0%Z
    /\ summary_skills (report_summary r) = []
    /\ report_skills r = EmptyString
    /\ summary_agent_interactions (report_summary r) = 3%Z
    /\ report_log_length r = 3%Z.
Proof.
  intros Hq.
  destruct (main_run career (line :: more) w)
    as (opening & self0 & w0 & _ & Hs & Hck & Hsc & Hsk & Hlog & ->).
  cbn [decision_loop fst]. rewrite Hsc. cbn [Z.ltb Z.compare]. rewrite Hq.
  unfold final_report.
  destruct (generate_summary_run self0 w0) as (e & n & w' & -> & _).
  rewrite Hck, Hsk, Hsc, Hlog. unfold dict_getitem, career_dict.
  cbn [dict_lookup]. rewrite String.eqb_refl.
  cbn [res_bind py_set set_insert_all summary_skills].
  assert (Hnil : set_iteration [] = []).
  { apply Permutation_nil, Permutation_sym, set_iteration_perm. }
  rewrite Hnil. cbn [firstn py_join str_items res_bind String.concat].
  unfold get_agent_log, bind, get_self, ret. cbn [fst snd]. rewrite Hlog.
  do 2 eexists. repeat split.
Qed.

Lemma decision_loop_end_of_input lines : forall self w,
  started self = true ->
  forallb (fun line => negb (is_quit (str_strip line))) lines = true ->
  (scenarios_completed (simulation_state self)
     + Z.of_nat (List.length (filter is_decision lines)) < 5)%Z ->
  fst (decision_loop lines (self, w)) = EOFError.
Proof.
  induction lines as [|line lines IH]; intros self w Hs Hq Hn;
    cbn [decision_loop fst filter forallb] in *.
  - cbn [List.length] in Hn.
    destruct (Z.ltb_spec (scenarios_completed (simulation_state self)) 5);
      [reflexivity | lia].
  - apply andb_prop in Hq. destruct Hq as (Hq1 & Hq).
    apply negb_true_iff in Hq1.
    assert (Hlt : (scenarios_completed (simulation_state self) <? 5)%Z = true)
      by (apply Z.ltb_lt; lia).
    rewrite Hlt, Hq1.
    assert (Hd : is_decision line =
                 negb (String.eqb (str_strip line) EmptyString))
      by (unfold is_decision; now rewrite Hq1).
    rewrite Hd in Hn.
    destruct (String.eqb (str_strip line) EmptyString); cbn [negb] in Hn.
    + now apply IH.
    + destruct (process_user_decision_run (str_strip line) self w Hs)
        as (e & n & r & w1 & Hrun & _).
      pose proof (started_run_op (Decide (str_strip line)) (self, w) Hs)
        as Hs1.
      cbn [run_op fst] in Hs1. rewrite Hrun in Hs1 |- *. cbn [snd fst] in Hs1.
      apply IH; [exact Hs1 | exact Hq |].
      fields. cbn [List.length] in Hn. lia.
Qed.

(** X18: Without a quit word and with fewer than five decision lines the input
    runs out: [main] ends with the [EOFError] of [input()], for an empty
    input before anything is asked of the model. *)
Theorem main_end_of_input stdin w :
  forallb (fun line => negb (is_quit (str_strip line))) (tl stdin) = true ->
  (List.length (filter is_decision (tl stdin)) < 5)%nat ->
  fst (main stdin w) = EOFError
  /\ (stdin = [] -> main stdin w = (EOFError, (init, w))).
Proof.
  intros Hq Hn. split; [|now intros ->].
  destruct stdin as [|career lines]; [reflexivity|]. cbn [tl] in *.
  destruct (main_run career lines w)
    as (opening & self0 & w0 & _ & Hs & _ & Hsc & _ & _ & ->).
  pose proof (decision_loop_end_of_input lines self0 w0 Hs Hq) as H.
  rewrite Hsc in H. specialize (H ltac:(lia)).
  destruct (decision_loop lines (self0, w0)) as [[[]|e|] s1]; cbn [fst] in *;
    [discriminate | discriminate | reflexivity].
Qed.

End MainProperties.

(** ** The properties at work on the scripts *)

Lemma decision_without_career_raises_witness :
  dict_lookup (career_knowledge init) "career" = None
  /\ @process_user_decision chef_runtime "fix the oven" (init, chef_script) =
       (Raise (KeyError "career"), (init, chef_script)).
Proof.
  split; [reflexivity|].
  apply (@decision_without_career_raises chef_runtime
           "fix the oven" init chef_script).
  reflexivity.
Defined.


Lemma unhashable_skill_breaks_every_summary_witness :
  started nested_skills = true
  /\ forallb hashable (skills_demonstrated (simulation_state nested_skills))
     = false
  /\ fst (@generate_summary chef_runtime
            (@run_ops chef_runtime [Decide "hide"; Summarize; Start "Cook"]
               (nested_skills, chef_script))) = Raise TypeError.
Proof.
  split; [reflexivity|]. split; [reflexivity|].
  apply (@unhashable_skill_breaks_every_summary chef_runtime
           nested_skills chef_script [Decide "hide"; Summarize; Start "Cook"]);
    reflexivity.
Defined.

Ltac shape_run answer :=
  let e := fresh "e" in
  let n := fresh "n" in
  let r := fresh "r" in
  let s' := fresh "s'" in
  let Hrun := fresh "Hrun" in
  let Hlog := fresh "Hlog" in
  destruct (@skills_used_of_other_shapes shapes_runtime "improvise"
              (fst (shape_started answer)) (snd (shape_started answer))
              eq_refl)
    as (e & n & r & s' & Hrun & Hlog & ?Hother & ?Hmissing & ?Hscalar
        & ?Htext & ?Hobject);
  vm_compute in Hrun; injection Hrun as _ Hrun; subst s';
  vm_compute in Hlog; injection Hlog; intros; subst e n r;
  unfold shape_skills.

Lemma skills_used_of_other_shapes_witness :
  started (fst (shape_started text_document)) = true
  /\ shape_skills list_document = []
  /\ shape_skills empty_document = []
  /\ shape_skills null_document = []
  /\ shape_skills count_document = []
  /\ shape_skills text_document = [VStr "a"; VStr "b"]
  /\ shape_skills object_document = [VStr "plating"].
Proof.
  split; [reflexivity|].
  split; [|split; [|split; [|split; [|split]]]].
  - shape_run list_document.
    exact (Hother (VList [VInt 1]) eq_refl
             (fun d (H : VList [VInt 1] = VDict d) =>
                eq_ind (VList [VInt 1])
                  (fun v => match v with VList _ => True | _ => False end)
                  I (VDict d) H)).
  - shape_run empty_document.
    exact (Hmissing [] eq_refl eq_refl).
  - shape_run null_document.
    exact (Hscalar [("skills_used", VNone)] VNone eq_refl eq_refl
             (or_introl eq_refl)).
  - shape_run count_document.
    exact (Hscalar [("skills_used", VInt 7)] (VInt 7) eq_refl eq_refl
             (or_intror (or_intror (ex_intro _ 7%Z eq_refl)))).
  - shape_run text_document.
    exact (Htext [("skills_used", VStr "ab")] "ab" eq_refl eq_refl).
  - shape_run object_document.
    exact (Hobject [("skills_used", VDict [("plating", VInt 1)])]
             [("plating", VInt 1)] eq_refl eq_refl).
Defined.

Lemma summary_skills_size_witness :
  fst (@generate_summary chef_runtime chef_after_two) = Val chef_summary
  /\ (List.length (summary_skills chef_summary) <=
      List.length
        (skills_demonstrated (simulation_state (fst chef_after_two))))%nat.
Proof.
  split; [reflexivity|].
  apply (@summary_skills_size chef_runtime
           (fst chef_after_two) (snd chef_after_two) chef_summary).
  reflexivity.
Defined.

Lemma main_report_witness :
  fst (@main chef_runtime chef_stdin chef_script) = Finished chef_report
  /\ exists career lines,
       chef_stdin = career :: lines
       /\ summary_career (report_summary chef_report) = VStr career
       /\ (0 <= summary_scenarios_completed (report_summary chef_report)
           <= 5)%Z
       /\ (summary_scenarios_completed (report_summary chef_report) <=
           Z.of_nat (List.length (filter is_decision lines)))%Z
       /\ summary_agent_interactions (report_summary chef_report) =
            (3 + 3 * summary_scenarios_completed
                       (report_summary chef_report))%Z
       /\ report_log_length chef_report =
            summary_agent_interactions (report_summary chef_report).
Proof.
  split; [vm_compute; reflexivity|].
  apply (@main_report chef_runtime chef_stdin chef_script chef_report
           (snd (@main chef_runtime chef_stdin chef_script))).
  vm_compute. reflexivity.
Defined.


Lemma main_does_not_crash_on_string_skills_witness :
  (forall t,
     In t (agent_log (fst (snd (@main mixed_runtime chef_stdin chef_script)))) ->
     agent t = "Evaluator" ->
     forallb is_str (@recorded_skills mixed_runtime (action t)) = true)
  /\ @recorded_skills mixed_runtime number_document = [VInt 7]
  /\ forall e, fst (@main mixed_runtime chef_stdin chef_script) <> Crashed e.
Proof.
  assert (H : forall t,
     In t (agent_log (fst (snd (@main mixed_runtime chef_stdin chef_script)))) ->
     agent t = "Evaluator" ->
     forallb is_str (@recorded_skills mixed_runtime (action t)) = true).
  { assert (Hb : forallb
        (fun t => implb (String.eqb (agent t) "Evaluator")
                    (forallb is_str
                       (@recorded_skills mixed_runtime (action t))))
        (agent_log (fst (snd (@main mixed_runtime chef_stdin chef_script))))
        = true) by (vm_compute; reflexivity).
    intros t Hin Hag.
    pose proof (proj1 (forallb_forall _ _) Hb t Hin) as Ht.
    cbv beta in Ht. rewrite Hag, String.eqb_refl in Ht. exact Ht. }
  split; [exact H|]. split; [vm_compute; reflexivity|].
  apply (@main_does_not_crash_on_string_skills mixed_runtime
           chef_stdin chef_script).
  exact H.
Defined.

Lemma main_skips_blank_lines_witness :
  is_blank (" " ++ nl) = true
  /\ @main chef_runtime ("Chef" :: ["fix the oven"] ++ (" " ++ nl) :: ["hide"])
       chef_script =
     @main chef_runtime ("Chef" :: ["fix the oven"] ++ ["hide"]) chef_script.
Proof.
  split; [reflexivity|].
  apply (@main_skips_blank_lines chef_runtime "Chef" ["fix the oven"]
           (" " ++ nl) ["hide"] chef_script).
  reflexivity.
Defined.

Lemma main_reads_no_further_witness :
  fst (@main chef_runtime ["Chef"; "fix the oven"; "Quit"] chef_script)
    <> EOFError
  /\ @main chef_runtime (["Chef"; "fix the oven"; "Quit"] ++ ["hide"])
       chef_script =
     @main chef_runtime ["Chef"; "fix the oven"; "Quit"] chef_script.
Proof.
  split; [vm_compute; discriminate|].
  apply (@main_reads_no_further chef_runtime
           ["Chef"; "fix the oven"; "Quit"] ["hide"] chef_script).
  vm_compute. discriminate.
Defined.

Lemma main_quit_at_once_witness :
  is_quit (str_strip "  eXiT ") = true
  /\ exists r s,
       @main chef_runtime ("Chef" :: "  eXiT " :: ["hide"]) chef_script =
         (Finished r, s)
       /\ summary_scenarios_completed (report_summary r) = 0%Z
       /\ summary_skills (report_summary r) = []
       /\ report_skills r = EmptyString
       /\ summary_agent_interactions (report_summary r) = 3%Z
       /\ report_log_length r = 3%Z.
Proof.
  split; [reflexivity|].
  apply (@main_quit_at_once chef_runtime "Chef" "  eXiT " ["hide"]
           chef_script).
  reflexivity.
Defined.

Lemma main_end_of_input_witness :
  forallb (fun line => negb (is_quit (str_strip line)))
          (tl ["Chef"; "fix the oven"; " "; "hide"]) = true
  /\ (List.length (filter is_decision (tl ["Chef"; "fix the oven"; " "; "hide"]))
      < 5)%nat
  /\ fst (@main chef_runtime ["Chef"; "fix the oven"; " "; "hide"]
            chef_script) = EOFError.
Proof.
  split; [reflexivity|]. split; [vm_compute; lia|].
  apply (@main_end_of_input chef_runtime ["Chef"; "fix the oven"; " "; "hide"]
           chef_script); [reflexivity | vm_compute; lia].
Defined.
